(** * PPC analyzer backend: metrics aggregation and rule-based recommendations

    A shallow embedding of [analysis_engine.py] ([MetricsAnalysisEngine]) and
    [recommendation_engine.py] ([RecommendationEngine]), together with the part
    of [main.py] that chains them.

    Modelling conventions.
    - Numbers are IEEE-style extended rationals ([num]): finite values are exact
      rationals (rounding, overflow and the sign of zero are abstracted), and
      the three special values [PosInf], [NegInf], [NaN] behave as in float64.
    - A DataFrame is a list of column names and a list of rows; a row maps
      column names to cells and a cell without entry reads as NaN (missing).
    - Python objects live in a heap addressed by references, so that
      [dataframe.copy()] and in-place column assignment are visible.
    - Exceptions are results: every operation that can raise returns [Raise e].
    - [print] is diagnostics only and is not modelled. *)

From stdpp Require Import base option list gmap strings sorting numbers pretty.
From Stdlib Require Import QArith Qcanon.

Local Open Scope Qc_scope.

(** ** Numbers *)

Inductive num : Type :=
| Finite (q : Qc)
| PosInf
| NegInf
| NaN.

#[global] Instance num_eq_dec : EqDecision num.
Proof. solve_decision. Defined.

Definition num_of_Z (z : Z) : num := Finite (Qc_of_Z z).

Definition isnan (x : num) : bool :=
  match x with NaN => true | _ => false end.

Definition isinf (x : num) : bool :=
  match x with PosInf | NegInf => true | _ => false end.

Definition is_finite (x : num) : bool :=
  match x with Finite _ => true | _ => false end.

(** float64 addition on the extended rationals. *)
Definition num_add (x y : num) : num :=
  match x, y with
  | NaN, _ | _, NaN => NaN
  | PosInf, NegInf | NegInf, PosInf => NaN
  | PosInf, _ | _, PosInf => PosInf
  | NegInf, _ | _, NegInf => NegInf
  | Finite a, Finite b => Finite (a + b)
  end.

(** The sign of [a] decides the sign of [a * inf]; [0 * inf] is NaN. *)
Definition inf_times (a : Qc) (pos : bool) : num :=
  if bool_decide (a = 0) then NaN
  else if bool_decide (0 < a) then (if pos then PosInf else NegInf)
  else (if pos then NegInf else PosInf).

Definition num_mul (x y : num) : num :=
  match x, y with
  | NaN, _ | _, NaN => NaN
  | Finite a, Finite b => Finite (a * b)
  | Finite a, PosInf | PosInf, Finite a => inf_times a true
  | Finite a, NegInf | NegInf, Finite a => inf_times a false
  | PosInf, PosInf | NegInf, NegInf => PosInf
  | PosInf, NegInf | NegInf, PosInf => NegInf
  end.

(** float64 (numpy, pandas) true division: a zero divisor gives [inf], [-inf]
    or [NaN] and never raises. *)
Definition num_div (x y : num) : num :=
  match x, y with
  | NaN, _ | _, NaN => NaN
  | Finite a, Finite b =>
      if bool_decide (b = 0) then
        if bool_decide (a = 0) then NaN
        else if bool_decide (0 < a) then PosInf else NegInf
      else Finite (a / b)
  | Finite _, (PosInf | NegInf) => Finite 0
  | PosInf, Finite b => if bool_decide (0 ≤ b) then PosInf else NegInf
  | NegInf, Finite b => if bool_decide (0 ≤ b) then NegInf else PosInf
  | (PosInf | NegInf), (PosInf | NegInf) => NaN
  end.

(** [x < y]; every comparison with NaN is false. *)
Definition num_lt (x y : num) : bool :=
  match x, y with
  | NaN, _ | _, NaN => false
  | Finite a, Finite b => bool_decide (a < b)
  | NegInf, NegInf => false
  | NegInf, _ => true
  | _, NegInf => false
  | PosInf, _ => false
  | _, PosInf => true
  end.

(** [x > y]. *)
Definition num_gt (x y : num) : bool := num_lt y x.

(** The arithmetic sum of a list of numbers. *)
Definition sum_num (l : list num) : num := foldr num_add (Finite 0) l.

(** ** Cells, exceptions, results *)

(** A cell of a DataFrame: a number (NaN is the missing value) or text. *)
Inductive cell : Type :=
| CNum (x : num)
| CStr (s : string).

#[global] Instance cell_eq_dec : EqDecision cell.
Proof. solve_decision. Defined.

#[global] Instance cell_inhabited : Inhabited cell := populate (CNum NaN).

(** [pd.isna] on a cell. *)
Definition isna (c : cell) : bool :=
  match c with CNum x => isnan x | CStr _ => false end.

Inductive exn : Type :=
| ValueError (msg : string)
| KeyError (key : string)
| TypeError.

#[global] Instance exn_eq_dec : EqDecision exn.
Proof. solve_decision. Defined.

Inductive result (A : Type) : Type :=
| Ok (a : A)
| Raise (e : exn).
Arguments Ok {A} a.
Arguments Raise {A} e.

#[global] Instance result_eq_dec {A} `{EqDecision A} : EqDecision (result A).
Proof. solve_decision. Defined.

#[global] Instance result_ret : MRet result := λ A a, Ok a.
#[global] Instance result_bind : MBind result := λ A B f r,
  match r with Ok a => f a | Raise e => Raise e end.

#[global] Instance result_fmap : FMap result := λ A B f r,
  match r with Ok a => Ok (f a) | Raise e => Raise e end.

Fixpoint mapM_result {A B : Type} (f : A → result B) (l : list A) : result (list B) :=
  match l with
  | [] => Ok []
  | a :: l' => b ← f a; bs ← mapM_result f l'; Ok (b :: bs)
  end.

(** State and exceptions: a computation takes the state and returns a result
    together with the state it leaves, also when it raises. *)
Definition M (S A : Type) : Type := S → result A * S.

#[global] Instance M_ret {S} : MRet (M S) := λ A a s, (Ok a, s).
#[global] Instance M_bind {S} : MBind (M S) := λ A B f m s,
  match m s with
  | (Ok a, s') => f a s'
  | (Raise e, s') => (Raise e, s')
  end.

Definition raise {S A} (e : exn) : M S A := λ s, (Raise e, s).
Definition lift {S A} (r : result A) : M S A := λ s, (r, s).
Definition get_state {S} : M S S := λ s, (Ok s, s).
Definition put_state {S} (s : S) : M S unit := λ _, (Ok tt, s).

(** [try: body except Exception: handler]. *)
Definition try_except {S A} (body : M S A) (handler : exn → M S A) : M S A := λ s,
  match body s with
  | (Ok a, s') => (Ok a, s')
  | (Raise e, s') => handler e s'
  end.

(** [for x in l: body x]. *)
Fixpoint for_each {S A} (l : list A) (body : A → M S unit) : M S unit :=
  match l with
  | [] => mret tt
  | x :: l' => body x;; for_each l' body
  end.

(** ** The Python and pandas runtime

    Four library functions that the engines call are outside the repository
    and are taken as parameters: how [pd.to_numeric] reads a text cell
    ([None]: not a number), how [pd.to_datetime] reads one value ([None]: it
    raises), and the two float renderings used by the f-strings. *)
Class PyRuntime : Type := {
  parse_numeric : string → option num;
  parse_datetime : cell → option cell;
  format_2f : num → string;
  str_num : num → string;
}.

(** A concrete runtime for the worked examples: unsigned decimal integers are
    the numeric texts, dates are texts of digits and dashes, and numbers are
    rendered in decimal. *)
Definition is_digit (a : Ascii.ascii) : bool :=
  let n := Ascii.nat_of_ascii a in bool_decide (48 ≤ n ∧ n ≤ 57)%nat.

Fixpoint parse_digits (s : string) (acc : Z) : option Z :=
  match s with
  | EmptyString => Some acc
  | String a s' =>
      if is_digit a
      then parse_digits s' (10 * acc + Z.of_nat (Ascii.nat_of_ascii a - 48))%Z
      else None
  end.

Definition demo_parse_numeric (s : string) : option num :=
  match s with
  | EmptyString => None
  | _ => num_of_Z <$> parse_digits s 0
  end.

Fixpoint date_like (s : string) : bool :=
  match s with
  | EmptyString => true
  | String a s' => (is_digit a || bool_decide (Ascii.nat_of_ascii a = 45%nat)) && date_like s'
  end.

Definition demo_parse_datetime (c : cell) : option cell :=
  match c with
  | CStr (String a s) => if date_like (String a s) then Some c else None
  | _ => None
  end.

(** The integer nearest to [q], ties to even. *)
Definition round_half_even (q : Q) : Z :=
  let n := Qnum q in
  let d := Zpos (Qden q) in
  let f := (n / d)%Z in
  let r := (2 * (n - f * d))%Z in
  if (r <? d)%Z then f
  else if (d <? r)%Z then (f + 1)%Z
  else if Z.even f then f else (f + 1)%Z.

Definition two_digits (z : Z) : string :=
  if (z <? 10)%Z then "0" +:+ pretty z else pretty z.

Definition demo_format_2f (x : num) : string :=
  match x with
  | Finite q =>
      let c := round_half_even (this q * 100)%Q in
      let a := Z.abs c in
      (if (c <? 0)%Z then "-" else "") +:+ pretty (a / 100)%Z +:+ "." +:+ two_digits (a mod 100)%Z
  | PosInf => "inf"
  | NegInf => "-inf"
  | NaN => "nan"
  end.

Definition demo_str_num (x : num) : string :=
  match x with
  | Finite q =>
      if bool_decide (Qden (this q) = 1%positive)
      then pretty (Qnum (this q)) +:+ ".0"
      else pretty (Qnum (this q)) +:+ "/" +:+ pretty (Zpos (Qden (this q)))
  | PosInf => "inf"
  | NegInf => "-inf"
  | NaN => "nan"
  end.

Definition demo_runtime : PyRuntime :=
  {| parse_numeric := demo_parse_numeric;
     parse_datetime := demo_parse_datetime;
     format_2f := demo_format_2f;
     str_num := demo_str_num |}.

(** ** DataFrames *)

Record DataFrame : Type := mkDataFrame {
  columns : list string;
  rows : list (gmap string cell);
}.

#[global] Instance DataFrame_eq_dec : EqDecision DataFrame.
Proof. solve_decision. Defined.

(** [pd.DataFrame()] *)
Definition empty_frame : DataFrame := mkDataFrame [] [].

(** [c in df.columns] *)
Definition has_column (df : DataFrame) (c : string) : bool :=
  bool_decide (c ∈ columns df).

(** [df.empty]: an axis of length 0. *)
Definition frame_is_empty (df : DataFrame) : bool :=
  bool_decide (columns df = []) || bool_decide (rows df = []).

Definition column_values (df : DataFrame) (c : string) : list cell :=
  (λ r : gmap string cell, r !!! c) <$> rows df.

(** [df[c]] *)
Definition getitem (df : DataFrame) (c : string) : result (list cell) :=
  if has_column df c then Ok (column_values df c) else Raise (KeyError c).

Definition add_column (cols : list string) (c : string) : list string :=
  if bool_decide (c ∈ cols) then cols else cols ++ [c].

(** [df[c] = v] for a scalar [v]. *)
Definition setitem_scalar (df : DataFrame) (c : string) (v : cell) : DataFrame :=
  mkDataFrame (add_column (columns df) c)
              ((λ r : gmap string cell, <[c := v]> r) <$> rows df).

(** [df[c] = s] for a Series [s] over the same index: row [i] receives
    [s[i]], and NaN where the Series has no such label. *)
Definition setitem_series (df : DataFrame) (c : string) (s : list cell) : DataFrame :=
  mkDataFrame (add_column (columns df) c)
              (imap (λ i (r : gmap string cell), <[c := default (CNum NaN) (s !! i)]> r) (rows df)).

(** [df[mask]] for a boolean Series over the same index. *)
Fixpoint select_rows {A} (l : list A) (mask : list bool) : list A :=
  match l, mask with
  | x :: l', b :: mask' => if b then x :: select_rows l' mask' else select_rows l' mask'
  | _, _ => []
  end.

Definition boolean_index (df : DataFrame) (mask : list bool) : DataFrame :=
  mkDataFrame (columns df) (select_rows (rows df) mask).

(** [row[c]] on a row delivered by [iterrows]. *)
Definition row_getitem (df : DataFrame) (r : gmap string cell) (c : string) : result cell :=
  if has_column df c then Ok (r !!! c) else Raise (KeyError c).

(** A cell as an operand of arithmetic or of a comparison with a number. *)
Definition cell_num (c : cell) : result num :=
  match c with CNum x => Ok x | CStr _ => Raise TypeError end.

(** [s > y], [s < y] for a Series and a scalar. *)
Definition series_gt (s : list cell) (y : num) : result (list bool) :=
  mapM_result (λ c, x ← cell_num c; Ok (num_gt x y)) s.

Definition series_lt (s : list cell) (y : num) : result (list bool) :=
  mapM_result (λ c, x ← cell_num c; Ok (num_lt x y)) s.

(** [m1 & m2] *)
Definition mask_and (m1 m2 : list bool) : list bool := zip_with andb m1 m2.

(** [a / b] and [s * k] on Series over the same index. *)
Definition series_div (a b : list cell) : result (list cell) :=
  mapM_result (λ p : cell * cell, x ← cell_num p.1; y ← cell_num p.2; Ok (CNum (num_div x y)))
              (zip a b).

Definition series_mul_scalar (s : list cell) (k : num) : result (list cell) :=
  mapM_result (λ c, x ← cell_num c; Ok (CNum (num_mul x k))) s.

(** [s.sum()]: left to right from 0, NaN entries skipped. *)
Fixpoint series_sum_from (acc : num) (s : list cell) : result num :=
  match s with
  | [] => Ok acc
  | c :: s' => x ← cell_num c; series_sum_from (if isnan x then acc else num_add acc x) s'
  end.

Definition series_sum (s : list cell) : result num := series_sum_from (Finite 0) s.

(** [pd.to_numeric(., errors='coerce')] on one value. *)
Definition to_numeric_coerce `{PyRuntime} (c : cell) : num :=
  match c with
  | CNum x => x
  | CStr s => default NaN (parse_numeric s)
  end.

(** [.fillna(v)] on one number and on one cell. *)
Definition fillna_num (v x : num) : num := if isnan x then v else x.

Definition fillna_cell (v : num) (c : cell) : cell := if isna c then CNum v else c.

(** [.replace(targets, v)] on one cell. *)
Definition replace_cell (targets : list num) (v : num) (c : cell) : cell :=
  match c with
  | CNum x => if bool_decide (x ∈ targets) then CNum v else c
  | CStr _ => c
  end.

(** A cell-wise update of the whole frame ([replace], [fillna] with
    [inplace=True]). Each row is rebuilt over the declared columns, so that a
    cell without entry is treated like an explicit NaN. *)
Definition applymap (f : cell → cell) (df : DataFrame) : DataFrame :=
  mkDataFrame (columns df)
    ((λ r : gmap string cell, list_to_map ((λ c, (c, f (r !!! c))) <$> columns df)) <$> rows df).

(** [pd.to_datetime(s)]: raises as soon as one value cannot be parsed. *)
Definition to_datetime `{PyRuntime} (s : list cell) : result (list cell) :=
  mapM_result (λ c, match parse_datetime c with
                    | Some d => Ok d
                    | None => Raise (ValueError "Unknown datetime string format")
                    end) s.

(** *** groupby *)

(** Order of group keys ([sort=True]): numbers before text, numbers by
    value, text by code points. *)
Definition cell_leb (a b : cell) : bool :=
  match a, b with
  | CNum x, CNum y => negb (num_lt y x)
  | CNum _, CStr _ => true
  | CStr _, CNum _ => false
  | CStr s, CStr t => String.leb s t
  end.

Definition key_leb (a b : cell * cell) : bool :=
  if bool_decide (a.1 = b.1) then cell_leb a.2 b.2 else cell_leb a.1 b.1.

Definition group_key (keys : string * string) (r : gmap string cell) : cell * cell :=
  (r !!! keys.1, r !!! keys.2).

(** Rows with a missing value in a key column belong to no group
    ([dropna=True], the default). *)
Definition key_notna (k : cell * cell) : bool := negb (isna k.1) && negb (isna k.2).

Definition keyed_rows (keys : string * string) (rs : list (gmap string cell)) :
    list (gmap string cell) :=
  filter (λ r, key_notna (group_key keys r)) rs.

Definition group_keys (keys : string * string) (rs : list (gmap string cell)) :
    list (cell * cell) :=
  merge_sort (λ a b, key_leb a b) (remove_dups (group_key keys <$> keyed_rows keys rs)).

Definition group_members (keys : string * string) (rs : list (gmap string cell))
    (g : cell * cell) : list (gmap string cell) :=
  filter (λ r, group_key keys r = g) rs.

(** One named aggregation [out=(src, 'sum')] over the rows of a group. *)
Definition agg_sum (members : list (gmap string cell)) (spec : string * string) :
    result (string * cell) :=
  t ← series_sum ((λ r : gmap string cell, r !!! spec.2) <$> members);
  Ok (spec.1, CNum t).

Definition group_row (keys : string * string) (aggs : list (string * string))
    (rs : list (gmap string cell)) (g : cell * cell) : result (gmap string cell) :=
  totals ← mapM_result (agg_sum (group_members keys rs g)) aggs;
  Ok (<[keys.1 := g.1]> (<[keys.2 := g.2]> (list_to_map totals))).

(** [df.groupby([k1, k2]).agg(out=(src, 'sum'), ...).reset_index()] *)
Definition groupby_agg_sum (df : DataFrame) (keys : string * string)
    (aggs : list (string * string)) : result DataFrame :=
  rs ← mapM_result (group_row keys aggs (rows df)) (group_keys keys (rows df));
  Ok (mkDataFrame ([keys.1; keys.2] ++ (fst <$> aggs)) rs).

(** ** Objects and references *)

(** What a Python name can be bound to, as far as the engines look. *)
Inductive pyobj : Type :=
| PyDataFrame (df : DataFrame)
| PyNone
| PyStr (s : string)
| PyList (items : list cell).

Abbreviation loc := positive.
Abbreviation heap := (gmap positive pyobj).

Definition deref (l : loc) : M heap pyobj :=
  λ h, (Ok (default PyNone (h !! l)), h).

Definition alloc (o : pyobj) : M heap loc :=
  λ h, let l := fresh (dom h) in (Ok l, <[l := o]> h).

Definition store (l : loc) (o : pyobj) : M heap unit :=
  λ h, (Ok tt, <[l := o]> h).

Definition load_frame (l : loc) : M heap DataFrame :=
  o ← deref l;
  match o with
  | PyDataFrame df => mret df
  | _ => raise TypeError
  end.

Definition store_frame (l : loc) (df : DataFrame) : M heap unit :=
  store l (PyDataFrame df).

(** [obj.copy()]: a new object with the same content. *)
Definition copy_object (l : loc) : M heap loc :=
  o ← deref l; alloc o.

(** Closed decidable facts are settled by computation. *)
Ltac by_compute := apply (bool_decide_unpack _); vm_compute; exact I.

Section Engines.
Context `{rt : PyRuntime}.

(** ** analysis_engine.py: class MetricsAnalysisEngine *)

Record MetricsAnalysisEngine : Type := mkMetricsAnalysisEngine {
  self_df : loc;
}.

Definition numeric_cols : list string :=
  ["Impressions"; "Clicks"; "Spend"; "Sales"; "Orders"].

(** [pd.to_numeric(s, errors='coerce').fillna(0)] on one value. *)
Definition coerce_cell (c : cell) : cell :=
  CNum (fillna_num (Finite 0) (to_numeric_coerce c)).

(** analysis_engine.py, lines 16-35. *)
Definition _preprocess_data (self : MetricsAnalysisEngine) : M heap unit :=
  for_each numeric_cols (λ col,
    df ← load_frame (self_df self);
    if has_column df col then
      s ← lift (getitem df col);
      store_frame (self_df self) (setitem_series df col (coerce_cell <$> s))
    else
      store_frame (self_df self) (setitem_scalar df col (CNum (Finite 0))));;
  df ← load_frame (self_df self);
  if has_column df "Date" then
    try_except
      (s ← lift (getitem df "Date");
       d ← lift (to_datetime s);
       store_frame (self_df self) (setitem_series df "Date" d))
      (λ _, mret tt)
  else mret tt.

(** analysis_engine.py, lines 5-14: the argument is a reference to the
    caller's object. *)
Definition MetricsAnalysisEngine__init__ (dataframe : loc) : M heap MetricsAnalysisEngine :=
  o ← deref dataframe;
  match o with
  | PyDataFrame df =>
      l ← alloc (PyDataFrame df);
      let self := mkMetricsAnalysisEngine l in
      _preprocess_data self;;
      mret self
  | _ => raise (ValueError "Input must be a pandas DataFrame")
  end.

(** [self.df[col].sum()] *)
Definition column_sum (self : MetricsAnalysisEngine) (col : string) : M heap num :=
  df ← load_frame (self_df self);
  s ← lift (getitem df col);
  lift (series_sum s).

Definition get_total_impressions (self : MetricsAnalysisEngine) : M heap num :=
  column_sum self "Impressions".

Definition get_total_clicks (self : MetricsAnalysisEngine) : M heap num :=
  column_sum self "Clicks".

Definition get_total_spend (self : MetricsAnalysisEngine) : M heap num :=
  column_sum self "Spend".

Definition get_total_sales (self : MetricsAnalysisEngine) : M heap num :=
  column_sum self "Sales".

Definition get_total_orders (self : MetricsAnalysisEngine) : M heap num :=
  column_sum self "Orders".

Definition calculate_ctr (self : MetricsAnalysisEngine) : M heap num :=
  impressions ← get_total_impressions self;
  clicks ← get_total_clicks self;
  mret (if num_gt impressions (Finite 0)
        then num_mul (num_div clicks impressions) (num_of_Z 100)
        else Finite 0).

Definition calculate_cpc (self : MetricsAnalysisEngine) : M heap num :=
  spend ← get_total_spend self;
  clicks ← get_total_clicks self;
  mret (if num_gt clicks (Finite 0) then num_div spend clicks else Finite 0).

Definition calculate_cvr (self : MetricsAnalysisEngine) : M heap num :=
  orders ← get_total_orders self;
  clicks ← get_total_clicks self;
  mret (if num_gt clicks (Finite 0)
        then num_mul (num_div orders clicks) (num_of_Z 100)
        else Finite 0).

Definition calculate_acos (self : MetricsAnalysisEngine) : M heap num :=
  spend ← get_total_spend self;
  sales ← get_total_sales self;
  mret (if num_gt sales (Finite 0)
        then num_mul (num_div spend sales) (num_of_Z 100)
        else Finite 0).

Definition calculate_roas (self : MetricsAnalysisEngine) : M heap num :=
  sales ← get_total_sales self;
  spend ← get_total_spend self;
  mret (if num_gt spend (Finite 0) then num_div sales spend else Finite 0).

(** analysis_engine.py, lines 82-96: the dict of the ten indicators. *)
Definition get_campaign_performance_summary (self : MetricsAnalysisEngine) :
    M heap (gmap string num) :=
  total_impressions ← get_total_impressions self;
  total_clicks ← get_total_clicks self;
  total_spend ← get_total_spend self;
  total_sales ← get_total_sales self;
  total_orders ← get_total_orders self;
  ctr ← calculate_ctr self;
  cpc ← calculate_cpc self;
  cvr ← calculate_cvr self;
  acos ← calculate_acos self;
  roas ← calculate_roas self;
  mret (list_to_map [
    ("Total Impressions", total_impressions);
    ("Total Clicks", total_clicks);
    ("Total Spend", total_spend);
    ("Total Sales", total_sales);
    ("Total Orders", total_orders);
    ("Click-Through Rate (CTR)", ctr);
    ("Cost Per Click (CPC)", cpc);
    ("Conversion Rate (CVR)", cvr);
    ("Advertising Cost of Sales (ACOS)", acos);
    ("Return on Ad Spend (ROAS)", roas)]).

(** The default arguments of [get_keyword_performance]. *)
Definition keyword_column : string := "Keyword or Product Targeting".
Definition campaign_column : string := "Campaign Name".

Definition agg_cols : list string :=
  ["Impressions"; "Clicks"; "Spend"; "Sales"; "Orders"].

Definition named_aggs : list (string * string) :=
  [("Total_Impressions", "Impressions");
   ("Total_Clicks", "Clicks");
   ("Total_Spend", "Spend");
   ("Total_Sales", "Sales");
   ("Total_Orders", "Orders")].

(** [kd[numer] / kd[denom]] *)
Definition ratio_series (kd : DataFrame) (numer denom : string) : result (list cell) :=
  a ← getitem kd numer;
  b ← getitem kd denom;
  series_div a b.

(** analysis_engine.py, lines 114-132, on the frame [df] read from [self.df]:
    [keyword_data] is a new frame, updated column by column. *)
Definition keyword_table (df : DataFrame) : result DataFrame :=
  keyword_data ← groupby_agg_sum df (campaign_column, keyword_column) named_aggs;
  q ← ratio_series keyword_data "Total_Clicks" "Total_Impressions";
  ctr ← series_mul_scalar q (num_of_Z 100);
  let keyword_data := setitem_series keyword_data "CTR" ctr in
  cpc ← ratio_series keyword_data "Total_Spend" "Total_Clicks";
  let keyword_data := setitem_series keyword_data "CPC" cpc in
  q ← ratio_series keyword_data "Total_Orders" "Total_Clicks";
  cvr ← series_mul_scalar q (num_of_Z 100);
  let keyword_data := setitem_series keyword_data "CVR" cvr in
  q ← ratio_series keyword_data "Total_Spend" "Total_Sales";
  acos ← series_mul_scalar q (num_of_Z 100);
  let keyword_data := setitem_series keyword_data "ACOS" acos in
  roas ← ratio_series keyword_data "Total_Sales" "Total_Spend";
  let keyword_data := setitem_series keyword_data "ROAS" roas in
  let keyword_data := applymap (replace_cell [PosInf; NegInf] NaN) keyword_data in
  let keyword_data := applymap (fillna_cell (Finite 0)) keyword_data in
  Ok keyword_data.

(** analysis_engine.py, lines 98-132, called with its default arguments. *)
Definition get_keyword_performance (self : MetricsAnalysisEngine) : M heap DataFrame :=
  df ← load_frame (self_df self);
  if negb (has_column df keyword_column) || negb (has_column df campaign_column)
  then mret empty_frame
  else
    for_each agg_cols (λ col,
      df ← load_frame (self_df self);
      if negb (has_column df col)
      then store_frame (self_df self) (setitem_scalar df col (CNum (Finite 0)))
      else mret tt);;
    df ← load_frame (self_df self);
    lift (keyword_table df).

(** The operations a caller can invoke on an engine, results dropped. *)
Inductive engine_op : Type :=
| OpTotalImpressions | OpTotalClicks | OpTotalSpend | OpTotalSales | OpTotalOrders
| OpCtr | OpCpc | OpCvr | OpAcos | OpRoas
| OpSummary | OpKeywordPerformance.

Definition run_op (self : MetricsAnalysisEngine) (o : engine_op) : M heap unit :=
  match o with
  | OpTotalImpressions => get_total_impressions self;; mret tt
  | OpTotalClicks => get_total_clicks self;; mret tt
  | OpTotalSpend => get_total_spend self;; mret tt
  | OpTotalSales => get_total_sales self;; mret tt
  | OpTotalOrders => get_total_orders self;; mret tt
  | OpCtr => calculate_ctr self;; mret tt
  | OpCpc => calculate_cpc self;; mret tt
  | OpCvr => calculate_cvr self;; mret tt
  | OpAcos => calculate_acos self;; mret tt
  | OpRoas => calculate_roas self;; mret tt
  | OpSummary => get_campaign_performance_summary self;; mret tt
  | OpKeywordPerformance => get_keyword_performance self;; mret tt
  end.

(** An engine is built from the caller's object and [m] is called on it. *)
Definition with_engine {A} (dataframe : loc) (m : MetricsAnalysisEngine → M heap A) : M heap A :=
  self ← MetricsAnalysisEngine__init__ dataframe; m self.

(** ** recommendation_engine.py: class RecommendationEngine *)

Record RecommendationEngine : Type := mkRecommendationEngine {
  kpi_data : gmap string num;
  keyword_data : DataFrame;
  recommendations : list string;
}.

(** recommendation_engine.py, lines 4-12. *)
Definition RecommendationEngine__init__ (kpi_data : gmap string num)
    (keyword_data : DataFrame) : RecommendationEngine :=
  mkRecommendationEngine kpi_data keyword_data [].

(** [self.recommendations = l] *)
Definition set_recommendations (l : list string) : M RecommendationEngine unit :=
  λ self, (Ok tt, mkRecommendationEngine (kpi_data self) (keyword_data self) l).

(** [self.recommendations.append(s)] *)
Definition append_recommendation (s : string) : M RecommendationEngine unit :=
  λ self, (Ok tt, mkRecommendationEngine (kpi_data self) (keyword_data self)
                    (recommendations self ++ [s])).

(** [str(c)] and [format(c, '.2f')] as the f-strings apply them to a cell. *)
Definition py_str (c : cell) : string :=
  match c with CStr s => s | CNum x => str_num x end.

Definition py_format_2f (c : cell) : result string :=
  match c with
  | CNum x => Ok (format_2f x)
  | CStr _ => Raise (ValueError "Unknown format code 'f' for object of type 'str'")
  end.

(** The double quote character of the message templates. *)
Definition dquote : string := String (Ascii.ascii_of_nat 34) EmptyString.

(** The f-strings of lines 29, 43, 57 and 73, and the text of line 77. *)
Definition high_acos_message (keyword campaign : cell) (acos : string) : string :=
  "High ACOS Alert: Keyword acility_name" +:+ py_str keyword +:+ dquote +:+
  " in campaign acility_name" +:+ py_str campaign +:+ dquote +:+
  " has an ACOS of " +:+ acos +:+ "%. Consider pausing or reducing bid.".

Definition low_ctr_message (keyword campaign : cell) (ctr : string) : string :=
  "Low CTR: Keyword acility_name" +:+ py_str keyword +:+ dquote +:+
  " in campaign acility_name" +:+ py_str campaign +:+ dquote +:+
  " has a CTR of " +:+ ctr +:+ "%. Review ad copy/relevance or consider pausing.".

Definition high_performer_message (keyword campaign : cell) (acos : string) (sales : cell) :
    string :=
  "High Performer: Keyword acility_name" +:+ py_str keyword +:+ dquote +:+
  " in campaign acility_name" +:+ py_str campaign +:+ dquote +:+
  " is performing well (ACOS: " +:+ acos +:+ "%, Sales: " +:+ py_str sales +:+
  "). Consider increasing bid/budget.".

Definition ineffective_spend_message (keyword campaign spend : cell) : string :=
  "Ineffective Spend: Keyword acility_name" +:+ py_str keyword +:+ dquote +:+
  " in campaign acility_name" +:+ py_str campaign +:+ dquote +:+
  " has high spend (" +:+ py_str spend +:+
  ") with low/no orders. Review landing page or keyword relevance.".

Definition no_recommendation_message : string :=
  "No specific recommendations based on current data and rules. Campaign performance appears stable or data is insufficient.".

(** Rule 1, lines 21-30. *)
Definition rule_high_acos : M RecommendationEngine unit :=
  self ← get_state;
  let kd := keyword_data self in
  if has_column kd "ACOS" then
    s ← lift (getitem kd "ACOS");
    mask ← lift (series_gt s (num_of_Z 50));
    let high_acos_keywords := boolean_index kd mask in
    if negb (frame_is_empty high_acos_keywords) then
      for_each (rows high_acos_keywords) (λ row,
        keyword ← lift (row_getitem high_acos_keywords row "Keyword or Product Targeting");
        campaign ← lift (row_getitem high_acos_keywords row "Campaign Name");
        acos ← lift (row_getitem high_acos_keywords row "ACOS");
        acos_2f ← lift (py_format_2f acos);
        append_recommendation (high_acos_message keyword campaign acos_2f))
    else mret tt
  else mret tt.

(** Rule 2, lines 35-44. *)
Definition rule_low_ctr : M RecommendationEngine unit :=
  self ← get_state;
  let kd := keyword_data self in
  if has_column kd "CTR" && has_column kd "Total_Impressions" then
    s1 ← lift (getitem kd "CTR");
    m1 ← lift (series_lt s1 (num_of_Z 1));
    s2 ← lift (getitem kd "Total_Impressions");
    m2 ← lift (series_gt s2 (num_of_Z 1000));
    let low_ctr_keywords := boolean_index kd (mask_and m1 m2) in
    if negb (frame_is_empty low_ctr_keywords) then
      for_each (rows low_ctr_keywords) (λ row,
        keyword ← lift (row_getitem low_ctr_keywords row "Keyword or Product Targeting");
        campaign ← lift (row_getitem low_ctr_keywords row "Campaign Name");
        ctr ← lift (row_getitem low_ctr_keywords row "CTR");
        ctr_2f ← lift (py_format_2f ctr);
        append_recommendation (low_ctr_message keyword campaign ctr_2f))
    else mret tt
  else mret tt.

(** Rule 3, lines 47-58. *)
Definition rule_high_performer : M RecommendationEngine unit :=
  self ← get_state;
  let kd := keyword_data self in
  if has_column kd "ACOS" && has_column kd "Total_Sales" then
    s1 ← lift (getitem kd "ACOS");
    m1 ← lift (series_lt s1 (num_of_Z 20));
    s2 ← lift (getitem kd "Total_Sales");
    m2 ← lift (series_gt s2 (num_of_Z 100));
    let high_performing_keywords := boolean_index kd (mask_and m1 m2) in
    if negb (frame_is_empty high_performing_keywords) then
      for_each (rows high_performing_keywords) (λ row,
        keyword ← lift (row_getitem high_performing_keywords row "Keyword or Product Targeting");
        campaign ← lift (row_getitem high_performing_keywords row "Campaign Name");
        acos ← lift (row_getitem high_performing_keywords row "ACOS");
        acos_2f ← lift (py_format_2f acos);
        sales ← lift (row_getitem high_performing_keywords row "Total_Sales");
        append_recommendation (high_performer_message keyword campaign acos_2f sales))
    else mret tt
  else mret tt.

(** Rule 4, lines 61-74. *)
Definition rule_ineffective_spend : M RecommendationEngine unit :=
  self ← get_state;
  let kd := keyword_data self in
  if has_column kd "Total_Spend" && has_column kd "Total_Orders"
     && has_column kd "Total_Clicks" then
    s1 ← lift (getitem kd "Total_Spend");
    m1 ← lift (series_gt s1 (num_of_Z 50));
    s2 ← lift (getitem kd "Total_Orders");
    m2 ← lift (series_lt s2 (num_of_Z 1));
    s3 ← lift (getitem kd "Total_Clicks");
    m3 ← lift (series_gt s3 (num_of_Z 10));
    let ineffective_spend_keywords := boolean_index kd (mask_and (mask_and m1 m2) m3) in
    if negb (frame_is_empty ineffective_spend_keywords) then
      for_each (rows ineffective_spend_keywords) (λ row,
        keyword ← lift (row_getitem ineffective_spend_keywords row "Keyword or Product Targeting");
        campaign ← lift (row_getitem ineffective_spend_keywords row "Campaign Name");
        spend ← lift (row_getitem ineffective_spend_keywords row "Total_Spend");
        append_recommendation (ineffective_spend_message keyword campaign spend))
    else mret tt
  else mret tt.

(** Lines 76-77. *)
Definition add_sentinel_if_none : M RecommendationEngine unit :=
  self ← get_state;
  match recommendations self with
  | [] => append_recommendation no_recommendation_message
  | _ :: _ => mret tt
  end.

(** recommendation_engine.py, lines 14-79. *)
Definition generate_recommendations : M RecommendationEngine (list string) :=
  set_recommendations [];;
  rule_high_acos;;
  rule_low_ctr;;
  rule_high_performer;;
  rule_ineffective_spend;;
  add_sentinel_if_none;;
  self ← get_state;
  mret (recommendations self).

(** ** main.py, lines 155-173: the two engines chained *)
Definition analyze (combined_df : loc) : M heap (gmap string num * list string) :=
  arg ← copy_object combined_df;
  analysis_engine ← MetricsAnalysisEngine__init__ arg;
  kpi_summary ← get_campaign_performance_summary analysis_engine;
  keyword_performance_df ← get_keyword_performance analysis_engine;
  let recommendation_engine :=
    RecommendationEngine__init__ kpi_summary keyword_performance_df in
  recommendations_list ← lift (generate_recommendations recommendation_engine).1;
  mret (kpi_summary, recommendations_list).

(** ** Specification-level definitions

    The pure functions and predicates in which the properties of the two
    engines are stated. *)

(** The number held by a numeric cell. *)
Definition cell_value (c : cell) : num :=
  match c with CNum x => x | CStr _ => NaN end.

Definition is_num (c : cell) : bool :=
  match c with CNum _ => true | CStr _ => false end.

(** The value of column [c] in row [r] of the input [df] after coercion:
    text that is not a number and missing values count as 0, and so does
    every row of an absent column. *)
Definition coerced_value (df : DataFrame) (c : string) (r : gmap string cell) : num :=
  if has_column df c then fillna_num (Finite 0) (to_numeric_coerce (r !!! c)) else Finite 0.

(** One step of the loop of [_preprocess_data], and the date step. *)
Definition numeric_step (df : DataFrame) (col : string) : DataFrame :=
  if has_column df col
  then setitem_series df col (coerce_cell <$> column_values df col)
  else setitem_scalar df col (CNum (Finite 0)).

Definition date_step (df : DataFrame) : DataFrame :=
  if has_column df "Date" then
    match to_datetime (column_values df "Date") with
    | Ok d => setitem_series df "Date" d
    | Raise _ => df
    end
  else df.

(** The frame an engine holds after construction from [df]. *)
Definition preprocess_frame (df : DataFrame) : DataFrame :=
  date_step (foldl numeric_step df numeric_cols).

(** The five numeric columns exist and hold numbers other than NaN. *)
Definition numeric_ready (df : DataFrame) : Prop :=
  ∀ c, c ∈ numeric_cols →
    c ∈ columns df ∧ ∀ r, r ∈ rows df → ∃ x, r !!! c = CNum x ∧ isnan x = false.

(** The engine's reference holds the frame [df], whose numeric columns are
    ready. *)
Definition engine_at (self : MetricsAnalysisEngine) (h : heap) (df : DataFrame) : Prop :=
  h !! self_df self = Some (PyDataFrame df) ∧ numeric_ready df.

(** The (Campaign Name, Keyword or Product Targeting) pair of a row. *)
Definition dimension_pair (r : gmap string cell) : cell * cell :=
  group_key (campaign_column, keyword_column) r.

(** The distinct pairs present in a frame. *)
Definition distinct_pairs (df : DataFrame) : list (cell * cell) :=
  remove_dups (dimension_pair <$> rows df).

(** A dimension value that is present: text or a finite number. *)
Definition dim_ok (c : cell) : bool :=
  match c with CStr _ => true | CNum x => is_finite x end.

Definition dims_complete (df : DataFrame) : bool :=
  forallb (λ r : gmap string cell,
             dim_ok (r !!! campaign_column) && dim_ok (r !!! keyword_column)) (rows df).

(** Every coerced value of the five numeric columns is finite. *)
Definition finite_metrics (df : DataFrame) : bool :=
  forallb (λ r, forallb (λ c, is_finite (coerced_value df c r)) numeric_cols) (rows df).

(** The sum of column [src] over the rows of group [g]. *)
Definition group_total (df : DataFrame) (g : cell * cell) (src : string) : num :=
  sum_num ((λ r : gmap string cell, cell_value (r !!! src))
             <$> group_members (campaign_column, keyword_column) (rows df) g).

(** What [replace([inf, -inf], nan)] followed by [fillna(0)] does to a cell
    and to a number. *)
Definition normalize_cell (c : cell) : cell :=
  fillna_cell (Finite 0) (replace_cell [PosInf; NegInf] NaN c).

Definition normalize (x : num) : num := if is_finite x then x else Finite 0.

Definition percent (x y : num) : num := num_mul (num_div x y) (num_of_Z 100).

(** The row of the grouped table for group [g] of the engine's frame [df]. *)
Definition grouped_row (df : DataFrame) (g : cell * cell) : gmap string cell :=
  let ti := group_total df g "Impressions" in
  let tc := group_total df g "Clicks" in
  let tsp := group_total df g "Spend" in
  let tsa := group_total df g "Sales" in
  let tor := group_total df g "Orders" in
  list_to_map [
    (campaign_column, normalize_cell g.1);
    (keyword_column, normalize_cell g.2);
    ("Total_Impressions", normalize_cell (CNum ti));
    ("Total_Clicks", normalize_cell (CNum tc));
    ("Total_Spend", normalize_cell (CNum tsp));
    ("Total_Sales", normalize_cell (CNum tsa));
    ("Total_Orders", normalize_cell (CNum tor));
    ("CTR", normalize_cell (CNum (percent tc ti)));
    ("CPC", normalize_cell (CNum (num_div tsp tc)));
    ("CVR", normalize_cell (CNum (percent tor tc)));
    ("ACOS", normalize_cell (CNum (percent tsp tsa)));
    ("ROAS", normalize_cell (CNum (num_div tsa tsp)))].

Definition grouped_columns : list string :=
  [campaign_column; keyword_column;
   "Total_Impressions"; "Total_Clicks"; "Total_Spend"; "Total_Sales"; "Total_Orders";
   "CTR"; "CPC"; "CVR"; "ACOS"; "ROAS"].

Definition grouped_table (df : DataFrame) : DataFrame :=
  mkDataFrame grouped_columns
    (grouped_row df <$> group_keys (campaign_column, keyword_column) (rows df)).

(** The table [get_keyword_performance] returns for the engine's frame. *)
Definition performance_table (df : DataFrame) : DataFrame :=
  if has_column df keyword_column && has_column df campaign_column
  then grouped_table df else empty_frame.

(** The sum of a column of the engine's frame, and the guarded ratios of
    lines 52-80. *)
Definition frame_total (df : DataFrame) (c : string) : num :=
  sum_num (cell_value <$> column_values df c).

Definition guarded_ratio (numer denom : num) : num :=
  if num_gt denom (Finite 0) then num_div numer denom else Finite 0.

Definition guarded_percent (numer denom : num) : num :=
  if num_gt denom (Finite 0) then percent numer denom else Finite 0.

(** The overall summary for the engine's frame [df]. *)
Definition summary_of (df : DataFrame) : gmap string num :=
  let ti := frame_total df "Impressions" in
  let tc := frame_total df "Clicks" in
  let tsp := frame_total df "Spend" in
  let tsa := frame_total df "Sales" in
  let tor := frame_total df "Orders" in
  list_to_map [
    ("Total Impressions", ti);
    ("Total Clicks", tc);
    ("Total Spend", tsp);
    ("Total Sales", tsa);
    ("Total Orders", tor);
    ("Click-Through Rate (CTR)", guarded_percent tc ti);
    ("Cost Per Click (CPC)", guarded_ratio tsp tc);
    ("Conversion Rate (CVR)", guarded_percent tor tc);
    ("Advertising Cost of Sales (ACOS)", guarded_percent tsp tsa);
    ("Return on Ad Spend (ROAS)", guarded_ratio tsa tsp)].

(** The five ratio columns of the grouped table with their numerator and
    denominator columns. *)
Definition ratio_columns : list (string * (string * string)) :=
  [("CTR", ("Total_Clicks", "Total_Impressions"));
   ("CPC", ("Total_Spend", "Total_Clicks"));
   ("CVR", ("Total_Orders", "Total_Clicks"));
   ("ACOS", ("Total_Spend", "Total_Sales"));
   ("ROAS", ("Total_Sales", "Total_Spend"))].

(** The five totals of the engine with the column each one sums. *)
Definition total_getters : list (string * (MetricsAnalysisEngine → M heap num)) :=
  [("Impressions", get_total_impressions);
   ("Clicks", get_total_clicks);
   ("Spend", get_total_spend);
   ("Sales", get_total_sales);
   ("Orders", get_total_orders)].

(** *** The rules, row by row *)

Definition cell_gt (c : cell) (y : Z) : bool := num_gt (cell_value c) (num_of_Z y).
Definition cell_lt (c : cell) (y : Z) : bool := num_lt (cell_value c) (num_of_Z y).

Definition fires_high_acos (r : gmap string cell) : bool :=
  cell_gt (r !!! "ACOS") 50.

Definition fires_low_ctr (r : gmap string cell) : bool :=
  cell_lt (r !!! "CTR") 1 && cell_gt (r !!! "Total_Impressions") 1000.

Definition fires_high_performer (r : gmap string cell) : bool :=
  cell_lt (r !!! "ACOS") 20 && cell_gt (r !!! "Total_Sales") 100.

Definition fires_ineffective_spend (r : gmap string cell) : bool :=
  cell_gt (r !!! "Total_Spend") 50 && cell_lt (r !!! "Total_Orders") 1
  && cell_gt (r !!! "Total_Clicks") 10.

Definition advice_high_acos (r : gmap string cell) : string :=
  high_acos_message (r !!! keyword_column) (r !!! campaign_column)
                    (format_2f (cell_value (r !!! "ACOS"))).

Definition advice_low_ctr (r : gmap string cell) : string :=
  low_ctr_message (r !!! keyword_column) (r !!! campaign_column)
                  (format_2f (cell_value (r !!! "CTR"))).

Definition advice_high_performer (r : gmap string cell) : string :=
  high_performer_message (r !!! keyword_column) (r !!! campaign_column)
                         (format_2f (cell_value (r !!! "ACOS"))) (r !!! "Total_Sales").

Definition advice_ineffective_spend (r : gmap string cell) : string :=
  ineffective_spend_message (r !!! keyword_column) (r !!! campaign_column)
                            (r !!! "Total_Spend").

(** The advisories of each rule for the rows that satisfy it, in row order. *)
Definition matches_high_acos (kd : DataFrame) : list string :=
  advice_high_acos <$> filter (λ r, fires_high_acos r) (rows kd).

Definition matches_low_ctr (kd : DataFrame) : list string :=
  advice_low_ctr <$> filter (λ r, fires_low_ctr r) (rows kd).

Definition matches_high_performer (kd : DataFrame) : list string :=
  advice_high_performer <$> filter (λ r, fires_high_performer r) (rows kd).

Definition matches_ineffective_spend (kd : DataFrame) : list string :=
  advice_ineffective_spend <$> filter (λ r, fires_ineffective_spend r) (rows kd).

(** A rule is applied when the columns of its condition exist. *)
Definition rule1_columns : list string := ["ACOS"].
Definition rule2_columns : list string := ["CTR"; "Total_Impressions"].
Definition rule3_columns : list string := ["ACOS"; "Total_Sales"].
Definition rule4_columns : list string := ["Total_Spend"; "Total_Orders"; "Total_Clicks"].

Definition has_columns (kd : DataFrame) (cs : list string) : bool :=
  forallb (has_column kd) cs.

Definition rule1_advisories (kd : DataFrame) : list string :=
  if has_columns kd rule1_columns then matches_high_acos kd else [].

Definition rule2_advisories (kd : DataFrame) : list string :=
  if has_columns kd rule2_columns then matches_low_ctr kd else [].

Definition rule3_advisories (kd : DataFrame) : list string :=
  if has_columns kd rule3_columns then matches_high_performer kd else [].

Definition rule4_advisories (kd : DataFrame) : list string :=
  if has_columns kd rule4_columns then matches_ineffective_spend kd else [].

(** What [generate_recommendations] returns for the advisories produced. *)
Definition or_sentinel (advisories : list string) : list string :=
  match advisories with
  | [] => [no_recommendation_message]
  | _ :: _ => advisories
  end.

(** The number of rules a row satisfies. *)
Definition rules_satisfied (r : gmap string cell) : nat :=
  Nat.b2n (fires_high_acos r) + Nat.b2n (fires_low_ctr r)
  + Nat.b2n (fires_high_performer r) + Nat.b2n (fires_ineffective_spend r).

(** The columns on which the rules compute. *)
Definition metric_columns : list string :=
  ["Total_Impressions"; "Total_Clicks"; "Total_Spend"; "Total_Sales"; "Total_Orders";
   "CTR"; "ACOS"].

(** A table of grouped rows: the metric columns it has hold numbers, and its
    rows are identified by the two dimension columns. *)
Definition grouped_rows_table (kd : DataFrame) : bool :=
  forallb (λ r : gmap string cell,
             forallb (λ c, negb (has_column kd c) || is_num (r !!! c)) metric_columns)
          (rows kd)
  && (bool_decide (rows kd = [])
      || (has_column kd keyword_column && has_column kd campaign_column)).

(** ** Datasets and tables of the worked examples *)

Definition report_columns : list string :=
  [campaign_column; keyword_column; "Impressions"; "Clicks"; "Spend"; "Sales"; "Orders"].

Definition report_row (campaign keyword impressions clicks spend sales orders : cell) :
    gmap string cell :=
  list_to_map [
    (campaign_column, campaign); (keyword_column, keyword);
    ("Impressions", impressions); ("Clicks", clicks); ("Spend", spend);
    ("Sales", sales); ("Orders", orders)].

Definition int_cell (z : Z) : cell := CNum (num_of_Z z).

(** The example of the specification: one row, campaign A, keyword kw1. *)
Definition example_frame : DataFrame :=
  mkDataFrame report_columns
    [report_row (CStr "A") (CStr "kw1")
                (int_cell 1000) (int_cell 5) (int_cell 100) (int_cell 50) (int_cell 0)].

Definition example_heap : heap := {[ 1%positive := PyDataFrame example_frame ]}.

(** The grouped row of the example. *)
Definition example_grouped_row : gmap string cell :=
  list_to_map [
    (campaign_column, CStr "A"); (keyword_column, CStr "kw1");
    ("Total_Impressions", int_cell 1000); ("Total_Clicks", int_cell 5);
    ("Total_Spend", int_cell 100); ("Total_Sales", int_cell 50);
    ("Total_Orders", int_cell 0);
    ("CTR", CNum (Finite (Q2Qc (1 # 2)))); ("CPC", int_cell 20); ("CVR", int_cell 0);
    ("ACOS", int_cell 200); ("ROAS", CNum (Finite (Q2Qc (1 # 2))))].

(** Three keywords in two campaigns; (A, kw1) occurs twice. *)
Definition two_campaigns_frame : DataFrame :=
  mkDataFrame report_columns
    [report_row (CStr "B") (CStr "kw1")
                (int_cell 2000) (int_cell 5) (int_cell 100) (int_cell 50) (int_cell 0);
     report_row (CStr "A") (CStr "kw1")
                (int_cell 10) (int_cell 50) (int_cell 100) (int_cell 500) (int_cell 3);
     report_row (CStr "A") (CStr "kw2")
                (int_cell 7) (int_cell 0) (int_cell 0) (int_cell 0) (int_cell 0);
     report_row (CStr "A") (CStr "kw1")
                (int_cell 1) (int_cell 20) (int_cell 1) (int_cell 1) (int_cell 0)].

Definition two_campaigns_heap : heap := {[ 1%positive := PyDataFrame two_campaigns_frame ]}.

(** A dirty dataset: text and missing values in numeric columns, and no
    Orders column. *)
Definition dirty_frame : DataFrame :=
  mkDataFrame [campaign_column; keyword_column; "Impressions"; "Clicks"; "Spend"; "Sales"; "Date"]
    [list_to_map [(campaign_column, CStr "A"); (keyword_column, CStr "kw1");
                  ("Impressions", CStr "n/a"); ("Clicks", CStr "12");
                  ("Spend", int_cell 3); ("Sales", CNum NaN); ("Date", CStr "yesterday")];
     list_to_map [(campaign_column, CStr "A"); (keyword_column, CStr "kw1");
                  ("Impressions", int_cell 5); ("Clicks", int_cell 1);
                  ("Spend", int_cell 4)]].

Definition dirty_heap : heap := {[ 1%positive := PyDataFrame dirty_frame ]}.

(** Negative values in every denominator column. *)
Definition negative_frame : DataFrame :=
  mkDataFrame report_columns
    [report_row (CStr "A") (CStr "kw1")
                (int_cell (-10)) (int_cell (-5)) (int_cell (-3)) (int_cell (-2)) (int_cell 1)].

Definition negative_heap : heap := {[ 1%positive := PyDataFrame negative_frame ]}.

(** A row whose Campaign Name is missing, beside a complete row. *)
Definition missing_campaign_frame : DataFrame :=
  mkDataFrame report_columns
    [report_row (CStr "A") (CStr "kw1")
                (int_cell 1) (int_cell 1) (int_cell 1) (int_cell 1) (int_cell 1);
     report_row (CNum NaN) (CStr "kw1")
                (int_cell 2) (int_cell 2) (int_cell 2) (int_cell 2) (int_cell 2)].

Definition missing_campaign_heap : heap :=
  {[ 1%positive := PyDataFrame missing_campaign_frame ]}.

(** An infinite Spend value, as [pd.to_numeric] and [read_csv] produce for
    the text "inf". *)
Definition infinite_spend_frame : DataFrame :=
  mkDataFrame report_columns
    [report_row (CStr "A") (CStr "kw1")
                (int_cell 10) (int_cell 1) (CNum PosInf) (int_cell 5) (int_cell 1)].

Definition infinite_spend_heap : heap :=
  {[ 1%positive := PyDataFrame infinite_spend_frame ]}.

(** A dataset without the Campaign Name column. *)
Definition no_campaign_frame : DataFrame :=
  mkDataFrame [keyword_column; "Impressions"; "Clicks"]
    [list_to_map [(keyword_column, CStr "kw1"); ("Impressions", int_cell 10);
                  ("Clicks", int_cell 2)]].

Definition no_campaign_heap : heap := {[ 1%positive := PyDataFrame no_campaign_frame ]}.

(** Not a dataset at all. *)
Definition not_a_frame_heap : heap := {[ 1%positive := PyStr "report.csv" ]}.

Definition table_row (campaign keyword : string)
    (impressions clicks spend sales orders ctr acos : Z) : gmap string cell :=
  list_to_map [
    (campaign_column, CStr campaign); (keyword_column, CStr keyword);
    ("Total_Impressions", int_cell impressions); ("Total_Clicks", int_cell clicks);
    ("Total_Spend", int_cell spend); ("Total_Sales", int_cell sales);
    ("Total_Orders", int_cell orders); ("CTR", int_cell ctr); ("ACOS", int_cell acos)].

Definition table_columns : list string :=
  [campaign_column; keyword_column; "Total_Impressions"; "Total_Clicks"; "Total_Spend";
   "Total_Sales"; "Total_Orders"; "CTR"; "ACOS"].

(** A table in which the first row satisfies rules 1, 2 and 4, the second
    rule 3, the third none and the fourth rule 1. *)
Definition busy_table : DataFrame :=
  mkDataFrame table_columns
    [table_row "A" "kw1" 2000 20 60 10 0 0 80;
     table_row "A" "kw2" 500 40 30 500 9 8 6;
     table_row "B" "kw3" 100 5 10 40 1 5 25;
     table_row "B" "kw4" 900 9 70 100 2 1 70].

(** A table in which no row satisfies any rule: Spend and Sales are 0. *)
Definition quiet_table : DataFrame :=
  mkDataFrame table_columns [table_row "A" "kw1" 100 0 0 0 0 0 0].

(** [busy_table] without its CTR column. *)
Definition table_without_ctr : DataFrame :=
  mkDataFrame
    [campaign_column; keyword_column; "Total_Impressions"; "Total_Clicks"; "Total_Spend";
     "Total_Sales"; "Total_Orders"; "ACOS"]
    (rows busy_table).

(** ** Lemmas: numbers and sums *)

Lemma num_add_comm (x y : num) : num_add x y = num_add y x.
Proof. destruct x, y; simpl; try done. by rewrite Qcplus_comm. Qed.

Lemma num_add_assoc (x y z : num) : num_add x (num_add y z) = num_add (num_add x y) z.
Proof. destruct x, y, z; simpl; try done. by rewrite Qcplus_assoc. Qed.

Lemma num_add_0_l (x : num) : num_add (Finite 0) x = x.
Proof. destruct x; simpl; try done. by rewrite Qcplus_0_l. Qed.

Lemma num_add_0_r (x : num) : num_add x (Finite 0) = x.
Proof. by rewrite num_add_comm, num_add_0_l. Qed.

Lemma sum_num_cons (x : num) (l : list num) : sum_num (x :: l) = num_add x (sum_num l).
Proof. done. Qed.

Lemma sum_num_app (l1 l2 : list num) :
  sum_num (l1 ++ l2) = num_add (sum_num l1) (sum_num l2).
Proof.
  induction l1 as [|x l1 IH].
  - symmetry. apply num_add_0_l.
  - rewrite <-app_comm_cons, !sum_num_cons, IH. apply num_add_assoc.
Qed.

Lemma sum_num_zeros {A} (l : list A) : sum_num ((λ _, Finite 0) <$> l) = Finite 0.
Proof. induction l as [|a l IH]; [done|]. by rewrite fmap_cons, sum_num_cons, IH. Qed.

Lemma sum_num_finite (l : list num) :
  Forall (λ x, is_finite x = true) l → is_finite (sum_num l) = true.
Proof.
  induction 1 as [|x l Hx _ IH]; [done|].
  rewrite sum_num_cons. destruct x; try done. by destruct (sum_num l).
Qed.

(** Pointwise sums: [Σ (f x + g x) = Σ f x + Σ g x]. *)
Lemma sum_num_pointwise {A} (f g : A → num) (l : list A) :
  sum_num ((λ x, num_add (f x) (g x)) <$> l)
  = num_add (sum_num (f <$> l)) (sum_num (g <$> l)).
Proof.
  induction l as [|a l IH].
  - symmetry. apply num_add_0_l.
  - rewrite !fmap_cons, !sum_num_cons, IH.
    rewrite <-!num_add_assoc. f_equal.
    rewrite !num_add_assoc. f_equal. apply num_add_comm.
Qed.

Lemma normalize_finite (x : num) : is_finite (normalize x) = true.
Proof. by destruct x. Qed.

Lemma normalize_id (x : num) : is_finite x = true → normalize x = x.
Proof. by destruct x. Qed.

Lemma normalize_cell_num (x : num) : normalize_cell (CNum x) = CNum (normalize x).
Proof. by destruct x. Qed.

Lemma normalize_cell_dim (c : cell) : dim_ok c = true → normalize_cell c = c.
Proof. destruct c as [[]|]; done. Qed.


(** ** Lemmas: results and state *)

Lemma mapM_result_ok {A B} (f : A → result B) (g : A → B) (l : list A) :
  (∀ x, x ∈ l → f x = Ok (g x)) → mapM_result f l = Ok (g <$> l).
Proof.
  induction l as [|a l IH]; intros Hf; [done|].
  simpl. rewrite (Hf a) by apply list_elem_of_here. simpl.
  rewrite IH; [done|]. intros x Hx. apply Hf. by apply list_elem_of_further.
Qed.

Lemma bind_ok {S A B} (m : M S A) (k : A → M S B) (s s' : S) (a : A) :
  m s = (Ok a, s') → (m ≫= k) s = k a s'.
Proof. intros H. unfold mbind, M_bind. by rewrite H. Qed.

Lemma bind_raise {S A B} (m : M S A) (k : A → M S B) (s s' : S) (e : exn) :
  m s = (Raise e, s') → (m ≫= k) s = (Raise e, s').
Proof. intros H. unfold mbind, M_bind. by rewrite H. Qed.

Lemma lift_ok_bind {S A B} (r : result A) (a : A) (k : A → M S B) (s : S) :
  r = Ok a → (lift r ≫= k) s = k a s.
Proof. by intros ->. Qed.

Lemma for_each_nil {S A} (body : A → M S unit) (s : S) :
  for_each [] body s = (Ok tt, s).
Proof. done. Qed.

Lemma for_each_cons {S A} (a : A) (l : list A) (body : A → M S unit) (s : S) :
  for_each (a :: l) body s = (body a ≫= λ _, for_each l body) s.
Proof. done. Qed.

(** A loop whose every iteration leaves the state alone leaves it alone. *)
Lemma for_each_skip {S A} (l : list A) (body : A → M S unit) (s : S) :
  (∀ x, x ∈ l → body x s = (Ok tt, s)) → for_each l body s = (Ok tt, s).
Proof.
  induction l as [|a l IH]; intros Hb; [done|].
  rewrite for_each_cons. erewrite bind_ok by (apply Hb; apply list_elem_of_here).
  apply IH. intros x Hx. apply Hb. by apply list_elem_of_further.
Qed.

(** ** Lemmas: lists and frames *)

Lemma select_rows_fmap {A} (f : A → bool) (l : list A) :
  select_rows l (f <$> l) = filter (λ x, f x) l.
Proof.
  induction l as [|a l IH]; [done|].
  rewrite fmap_cons, filter_cons. simpl. rewrite IH.
  by destruct (f a).
Qed.

Lemma imap_insert_fmap {A} (c : string) (g : A → cell) (f : A → gmap string cell)
    (l : list A) :
  imap (λ i (r : gmap string cell), <[c := default (CNum NaN) ((g <$> l) !! i)]> r) (f <$> l)
  = (λ x, <[c := g x]> (f x)) <$> l.
Proof.
  apply list_eq. intros i.
  rewrite list_lookup_imap, !list_lookup_fmap.
  destruct (l !! i); done.
Qed.

Lemma setitem_series_fmap {A} (cols : list string) (c : string) (g : A → cell)
    (f : A → gmap string cell) (l : list A) :
  setitem_series (mkDataFrame cols (f <$> l)) c (g <$> l)
  = mkDataFrame (add_column cols c) ((λ x, <[c := g x]> (f x)) <$> l).
Proof. unfold setitem_series. simpl. by rewrite imap_insert_fmap. Qed.

Lemma column_values_fmap {A} (cols : list string) (c : string)
    (f : A → gmap string cell) (l : list A) :
  column_values (mkDataFrame cols (f <$> l)) c = (λ x, f x !!! c) <$> l.
Proof. unfold column_values. simpl. by rewrite <-list_fmap_compose. Qed.

Lemma elem_of_add_column (cols : list string) (c c' : string) :
  c' ∈ add_column cols c ↔ c' ∈ cols ∨ c' = c.
Proof.
  unfold add_column. case_bool_decide.
  - split; [tauto|]. intros [?| ->]; done.
  - rewrite elem_of_app, list_elem_of_singleton. done.
Qed.

Lemma has_column_true (df : DataFrame) (c : string) :
  has_column df c = true ↔ c ∈ columns df.
Proof. unfold has_column. apply bool_decide_eq_true. Qed.

Lemma has_column_false (df : DataFrame) (c : string) :
  has_column df c = false ↔ c ∉ columns df.
Proof. unfold has_column. apply bool_decide_eq_false. Qed.

Lemma series_sum_from_numeric (acc : num) (s : list cell) :
  Forall (λ c, ∃ x, c = CNum x ∧ isnan x = false) s →
  series_sum_from acc s = Ok (num_add acc (sum_num (cell_value <$> s))).
Proof.
  intros Hs. revert acc. induction Hs as [|c s (x & -> & Hx) _ IH]; intros acc.
  - change (Ok acc = Ok (num_add acc (Finite 0))). by rewrite num_add_0_r.
  - rewrite fmap_cons, sum_num_cons.
    cbn [series_sum_from cell_num mbind result_bind cell_value].
    rewrite Hx, IH. by rewrite num_add_assoc.
Qed.

(** On numbers without NaN, [sum()] is the arithmetic sum. *)
Lemma series_sum_numeric (s : list cell) :
  Forall (λ c, ∃ x, c = CNum x ∧ isnan x = false) s →
  series_sum s = Ok (sum_num (cell_value <$> s)).
Proof.
  intros Hs. unfold series_sum. rewrite series_sum_from_numeric by done.
  by rewrite num_add_0_l.
Qed.

Lemma series_div_fmap {A} (na nb : A → num) (l : list A) :
  series_div ((λ x, CNum (na x)) <$> l) ((λ x, CNum (nb x)) <$> l)
  = Ok ((λ x, CNum (num_div (na x) (nb x))) <$> l).
Proof.
  unfold series_div. induction l as [|a l IH]; [done|].
  rewrite !fmap_cons. cbn [zip_with mapM_result].
  cbn [cell_num fst snd mbind result_bind]. by rewrite IH.
Qed.

Lemma series_mul_scalar_fmap {A} (n : A → num) (k : num) (l : list A) :
  series_mul_scalar ((λ x, CNum (n x)) <$> l) k = Ok ((λ x, CNum (num_mul (n x) k)) <$> l).
Proof.
  unfold series_mul_scalar. induction l as [|a l IH]; [done|].
  rewrite !fmap_cons. cbn [mapM_result].
  cbn [cell_num mbind result_bind]. by rewrite IH.
Qed.

(** ** Lemmas: the heap *)

Lemma load_frame_eq (h : heap) (l : loc) (df : DataFrame) :
  h !! l = Some (PyDataFrame df) → load_frame l h = (Ok df, h).
Proof. intros H. unfold load_frame, deref, mbind, M_bind. by rewrite H. Qed.

Lemma store_frame_eq (h : heap) (l : loc) (df : DataFrame) :
  store_frame l df h = (Ok tt, <[l := PyDataFrame df]> h).
Proof. done. Qed.

(** ** Lemmas: preprocessing *)

Lemma setitem_series_rows (df : DataFrame) (c : string) (g : gmap string cell → cell) :
  setitem_series df c (g <$> rows df)
  = mkDataFrame (add_column (columns df) c)
                ((λ r : gmap string cell, <[c := g r]> r) <$> rows df).
Proof.
  destruct df as [cols rs]. simpl.
  rewrite <-(list_fmap_id rs) at 1. by rewrite setitem_series_fmap.
Qed.

Lemma numeric_step_eq (df : DataFrame) (col : string) :
  numeric_step df col
  = mkDataFrame (add_column (columns df) col)
      ((λ r : gmap string cell, <[col := CNum (coerced_value df col r)]> r) <$> rows df).
Proof.
  unfold numeric_step, coerced_value. destruct (has_column df col) eqn:E.
  - unfold column_values. rewrite <-list_fmap_compose.
    by rewrite (setitem_series_rows df col
                  (coerce_cell ∘ (λ r : gmap string cell, r !!! col))).
  - done.
Qed.

Lemma lookup_total_foldl_insert (v : string → cell) (cols : list string)
    (r : gmap string cell) (c : string) :
  foldl (λ acc c', <[c' := v c']> acc) r cols !!! c
  = if bool_decide (c ∈ cols) then v c else r !!! c.
Proof.
  revert r. induction cols as [|c' cols IH]; intros r; [done|].
  simpl. rewrite IH. clear IH. repeat case_bool_decide; try done.
  - set_solver.
  - assert (c = c') as -> by set_solver. by rewrite lookup_total_insert_eq.
  - rewrite lookup_total_insert_ne; [done|]. set_solver.
Qed.

Lemma elem_of_foldl_add_column (cols0 cols : list string) (c : string) :
  c ∈ foldl add_column cols0 cols ↔ c ∈ cols0 ∨ c ∈ cols.
Proof.
  revert cols0. induction cols as [|c' cols IH]; intros cols0; simpl.
  - set_solver.
  - rewrite IH, elem_of_add_column. set_solver.
Qed.

Lemma foldl_ext_elem {A B} (f g : A → B → A) (l : list B) (a : A) :
  (∀ acc x, x ∈ l → f acc x = g acc x) → foldl f a l = foldl g a l.
Proof.
  revert a. induction l as [|x l IH]; intros a Hfg; [done|].
  simpl. rewrite Hfg by apply list_elem_of_here.
  apply IH. intros acc y Hy. apply Hfg. by apply list_elem_of_further.
Qed.

Lemma numeric_loop_eq (cols : list string) (df : DataFrame) :
  NoDup cols →
  foldl numeric_step df cols
  = mkDataFrame (foldl add_column (columns df) cols)
      ((λ r : gmap string cell,
          foldl (λ acc c, <[c := CNum (coerced_value df c r)]> acc) r cols) <$> rows df).
Proof.
  intros Hnd. revert df. induction Hnd as [|c cols Hc Hnd IH]; intros df.
  - simpl. destruct df. simpl. by rewrite list_fmap_id.
  - simpl. rewrite IH, numeric_step_eq. simpl. f_equal.
    rewrite <-list_fmap_compose. apply list_fmap_ext. intros _ r _. simpl.
    apply foldl_ext_elem. intros acc c' Hc'.
    assert (c' ≠ c) by set_solver.
    unfold coerced_value, has_column. simpl.
    rewrite lookup_total_insert_ne by done.
    f_equal. assert (c' ∈ add_column (columns df) c ↔ c' ∈ columns df) as Hiff
      by (rewrite elem_of_add_column; naive_solver).
    repeat case_bool_decide; naive_solver.
Qed.

Lemma to_datetime_ok (s d : list cell) :
  to_datetime s = Ok d →
  d = (λ c, default (CNum NaN) (parse_datetime c)) <$> s.
Proof.
  unfold to_datetime. revert d. induction s as [|c s IH]; intros d; simpl.
  - by intros [= <-].
  - destruct (parse_datetime c) as [c'|]; simpl; [|done].
    destruct (mapM_result _ s) as [d'|] eqn:E; simpl; [|done].
    intros [= <-]. by rewrite (IH d').
Qed.

Lemma date_step_shape (df : DataFrame) :
  ∃ f : gmap string cell → gmap string cell,
    rows (date_step df) = f <$> rows df
    ∧ (∀ c, c ∈ columns (date_step df) ↔ c ∈ columns df)
    ∧ (∀ r c, c ≠ "Date" → f r !!! c = r !!! c).
Proof.
  unfold date_step. destruct (has_column df "Date") eqn:Hd.
  - destruct (to_datetime (column_values df "Date")) as [d|e] eqn:E.
    + apply to_datetime_ok in E. subst d.
      unfold column_values. rewrite <-list_fmap_compose.
      rewrite (setitem_series_rows df "Date"
                 ((λ c, default (CNum NaN) (parse_datetime c))
                    ∘ (λ r : gmap string cell, r !!! "Date"))).
      eexists. split; [done|]. split.
      * intros c. simpl. rewrite elem_of_add_column.
        apply has_column_true in Hd. naive_solver.
      * intros r c Hc. simpl. by rewrite lookup_total_insert_ne.
    + exists id. by rewrite list_fmap_id.
  - exists id. by rewrite list_fmap_id.
Qed.

Lemma NoDup_numeric_cols : NoDup numeric_cols.
Proof. by_compute. Qed.

(** The engine's frame, row by row: the numeric columns hold the coerced
    values and every other column except [Date] is as in the input. *)
Lemma preprocess_frame_shape (df : DataFrame) :
  ∃ f : gmap string cell → gmap string cell,
    rows (preprocess_frame df) = f <$> rows df
    ∧ (∀ c, c ∈ columns (preprocess_frame df) ↔ c ∈ columns df ∨ c ∈ numeric_cols)
    ∧ (∀ r c, c ∈ numeric_cols → f r !!! c = CNum (coerced_value df c r))
    ∧ (∀ r c, c ∉ numeric_cols → c ≠ "Date" → f r !!! c = r !!! c).
Proof.
  unfold preprocess_frame.
  set (df5 := foldl numeric_step df numeric_cols).
  destruct (date_step_shape df5) as (fd & Hrows & Hcols & Hfd).
  assert (Hdf5 := numeric_loop_eq numeric_cols df NoDup_numeric_cols).
  fold df5 in Hdf5.
  exists (fd ∘ (λ r : gmap string cell,
                  foldl (λ acc c, <[c := CNum (coerced_value df c r)]> acc) r numeric_cols)).
  split; [|split; [|split]].
  - rewrite Hrows, Hdf5. cbn [rows]. by rewrite <-list_fmap_compose.
  - intros c. rewrite Hcols, Hdf5. cbn [columns]. apply elem_of_foldl_add_column.
  - intros r c Hc. unfold compose. rewrite Hfd.
    + rewrite lookup_total_foldl_insert. by rewrite bool_decide_eq_true_2.
    + intros ->. revert Hc. by_compute.
  - intros r c Hc Hdate. unfold compose. rewrite Hfd by done.
    rewrite lookup_total_foldl_insert. by rewrite bool_decide_eq_false_2.
Qed.

Lemma coerced_value_not_nan (df : DataFrame) (c : string) (r : gmap string cell) :
  isnan (coerced_value df c r) = false.
Proof.
  unfold coerced_value, fillna_num. destruct (has_column df c); [|done].
  by destruct (to_numeric_coerce (r !!! c)).
Qed.

Lemma preprocess_frame_ready (df : DataFrame) : numeric_ready (preprocess_frame df).
Proof.
  destruct (preprocess_frame_shape df) as (f & Hrows & Hcols & Hnum & _).
  intros c Hc. split.
  - apply Hcols. by right.
  - intros r'. rewrite Hrows. intros (r & -> & _)%list_elem_of_fmap.
    exists (coerced_value df c r). split; [by apply Hnum|]. apply coerced_value_not_nan.
Qed.

(** ** Lemmas: the engine on the heap *)

Lemma numeric_loop_heap (self : MetricsAnalysisEngine) (cols : list string)
    (h : heap) (df : DataFrame) :
  h !! self_df self = Some (PyDataFrame df) →
  for_each cols (λ col,
    df ← load_frame (self_df self);
    if has_column df col then
      s ← lift (getitem df col);
      store_frame (self_df self) (setitem_series df col (coerce_cell <$> s))
    else
      store_frame (self_df self) (setitem_scalar df col (CNum (Finite 0)))) h
  = (Ok tt, <[self_df self := PyDataFrame (foldl numeric_step df cols)]> h).
Proof.
  revert h df. induction cols as [|c cols IH]; intros h df Hh.
  - simpl. by rewrite insert_id.
  - rewrite for_each_cons.
    erewrite bind_ok; last first.
    { erewrite bind_ok by (by apply load_frame_eq).
      instantiate (1 := <[self_df self := PyDataFrame (numeric_step df c)]> h).
      instantiate (1 := tt).
      unfold numeric_step, getitem. destruct (has_column df c); done. }
    rewrite IH with (df := numeric_step df c) by apply lookup_insert_eq.
    by rewrite insert_insert_eq.
Qed.

Lemma preprocess_data_eq (self : MetricsAnalysisEngine) (h : heap) (df : DataFrame) :
  h !! self_df self = Some (PyDataFrame df) →
  _preprocess_data self h
  = (Ok tt, <[self_df self := PyDataFrame (preprocess_frame df)]> h).
Proof.
  intros Hh. unfold _preprocess_data.
  erewrite bind_ok by (by apply numeric_loop_heap).
  erewrite bind_ok by (apply load_frame_eq, lookup_insert_eq).
  unfold preprocess_frame, date_step.
  set (df5 := foldl numeric_step df numeric_cols).
  destruct (has_column df5 "Date") eqn:Hd.
  - unfold try_except, getitem. rewrite Hd.
    unfold mbind at 1, M_bind at 1, lift at 1.
    destruct (to_datetime (column_values df5 "Date")) as [d|e].
    + simpl. by rewrite insert_insert_eq.
    + done.
  - done.
Qed.

(** Construction from a DataFrame: the engine owns a fresh object that holds
    the preprocessed copy. *)
Lemma init_eq (h : heap) (dataframe : loc) (df : DataFrame) :
  h !! dataframe = Some (PyDataFrame df) →
  MetricsAnalysisEngine__init__ dataframe h
  = (Ok (mkMetricsAnalysisEngine (fresh (dom h))),
     <[fresh (dom h) := PyDataFrame (preprocess_frame df)]> h).
Proof.
  intros Hh. unfold MetricsAnalysisEngine__init__.
  unfold mbind at 1, M_bind at 1, deref. rewrite Hh. simpl.
  unfold mbind at 1, M_bind at 1, alloc.
  erewrite bind_ok by (apply preprocess_data_eq, lookup_insert_eq).
  simpl. by rewrite insert_insert_eq.
Qed.

Lemma init_not_frame (h : heap) (dataframe : loc) :
  (∀ df, h !! dataframe ≠ Some (PyDataFrame df)) →
  MetricsAnalysisEngine__init__ dataframe h
  = (Raise (ValueError "Input must be a pandas DataFrame"), h).
Proof.
  intros Hh. unfold MetricsAnalysisEngine__init__, mbind, M_bind, deref.
  destruct (h !! dataframe) as [[]|] eqn:E; try done. by destruct (Hh df).
Qed.

Lemma with_engine_eq {A} (h : heap) (dataframe : loc) (df : DataFrame)
    (m : MetricsAnalysisEngine → M heap A) :
  h !! dataframe = Some (PyDataFrame df) →
  with_engine dataframe m h
  = m (mkMetricsAnalysisEngine (fresh (dom h)))
      (<[fresh (dom h) := PyDataFrame (preprocess_frame df)]> h).
Proof. intros Hh. unfold with_engine. by erewrite bind_ok by (by apply init_eq). Qed.

Lemma column_numeric (df : DataFrame) (c : string) :
  numeric_ready df → c ∈ numeric_cols →
  Forall (λ c, ∃ x, c = CNum x ∧ isnan x = false) (column_values df c).
Proof.
  intros Hr Hc. destruct (Hr c Hc) as [_ Hrows].
  unfold column_values. apply Forall_fmap, Forall_forall. intros r Hin. by apply Hrows.
Qed.

(** On an engine's frame a total is the sum of the column and the heap is
    left as it is. *)
Lemma column_sum_eq (self : MetricsAnalysisEngine) (h : heap) (df : DataFrame) (c : string) :
  h !! self_df self = Some (PyDataFrame df) → numeric_ready df → c ∈ numeric_cols →
  column_sum self c h = (Ok (sum_num (cell_value <$> column_values df c)), h).
Proof.
  intros Hh Hr Hc. unfold column_sum.
  erewrite bind_ok by (by apply load_frame_eq).
  unfold getitem. rewrite (proj2 (has_column_true df c)) by (by apply Hr).
  unfold mbind, M_bind, lift. by rewrite series_sum_numeric by (by apply column_numeric).
Qed.

(** ** Lemmas: the grouped table *)

Ltac row_lookup :=
  unfold campaign_column, keyword_column;
  cbn [list_to_map foldr fst snd uncurry];
  repeat first [ rewrite lookup_total_insert_eq
               | rewrite lookup_total_insert_ne by done ].

Lemma getitem_fmap {A} (cols : list string) (c : string)
    (f : A → gmap string cell) (l : list A) :
  c ∈ cols → getitem (mkDataFrame cols (f <$> l)) c = Ok ((λ x, f x !!! c) <$> l).
Proof.
  intros Hc. unfold getitem.
  rewrite (proj2 (has_column_true (mkDataFrame cols (f <$> l)) c)) by done.
  by rewrite column_values_fmap.
Qed.

Lemma series_div_numeric {A} (a b : A → cell) (l : list A) :
  (∀ x, is_num (a x) = true) → (∀ x, is_num (b x) = true) →
  series_div (a <$> l) (b <$> l)
  = Ok ((λ x, CNum (num_div (cell_value (a x)) (cell_value (b x)))) <$> l).
Proof.
  intros Ha Hb.
  rewrite <-(series_div_fmap (λ x, cell_value (a x)) (λ x, cell_value (b x))).
  f_equal; apply list_fmap_ext; intros _ x _.
  - specialize (Ha x). by destruct (a x).
  - specialize (Hb x). by destruct (b x).
Qed.

Lemma group_members_subset (keys : string * string) (rs : list (gmap string cell))
    (g : cell * cell) (r : gmap string cell) :
  r ∈ group_members keys rs g → r ∈ rs.
Proof. unfold group_members. rewrite list_elem_of_filter. tauto. Qed.

Lemma agg_sum_eq (df : DataFrame) (g : cell * cell) (out src : string) :
  numeric_ready df → src ∈ numeric_cols →
  agg_sum (group_members (campaign_column, keyword_column) (rows df) g) (out, src)
  = Ok (out, CNum (group_total df g src)).
Proof.
  intros Hr Hsrc. unfold agg_sum. cbn [fst snd].
  rewrite series_sum_numeric.
  - rewrite <-list_fmap_compose. done.
  - apply Forall_fmap, Forall_forall. intros r Hin%group_members_subset.
    by apply (Hr src Hsrc).
Qed.

Lemma groupby_eq (df : DataFrame) :
  numeric_ready df →
  groupby_agg_sum df (campaign_column, keyword_column) named_aggs
  = Ok (mkDataFrame
          [campaign_column; keyword_column; "Total_Impressions"; "Total_Clicks";
           "Total_Spend"; "Total_Sales"; "Total_Orders"]
          ((λ g : cell * cell,
              <[campaign_column := g.1]> (<[keyword_column := g.2]> (list_to_map [
                ("Total_Impressions", CNum (group_total df g "Impressions"));
                ("Total_Clicks", CNum (group_total df g "Clicks"));
                ("Total_Spend", CNum (group_total df g "Spend"));
                ("Total_Sales", CNum (group_total df g "Sales"));
                ("Total_Orders", CNum (group_total df g "Orders"))])))
             <$> group_keys (campaign_column, keyword_column) (rows df))).
Proof.
  intros Hr. unfold groupby_agg_sum.
  erewrite mapM_result_ok; [done|].
  intros g _. unfold group_row, named_aggs. cbn [mapM_result].
  rewrite !agg_sum_eq by (done || by_compute).
  done.
Qed.

Lemma add_column_new (cols : list string) (c : string) :
  c ∉ cols → add_column cols c = cols ++ [c].
Proof. intros Hc. unfold add_column. by rewrite bool_decide_eq_false_2. Qed.

Ltac ratio_step :=
  rewrite !getitem_fmap by by_compute;
  cbn [mbind result_bind];
  rewrite series_div_numeric by (intros ?; row_lookup; reflexivity);
  cbn [mbind result_bind];
  rewrite ?series_mul_scalar_fmap; cbn [mbind result_bind];
  rewrite setitem_series_fmap;
  rewrite add_column_new by by_compute;
  cbn [app].

(** The table computed by lines 114-132 is [grouped_table]. *)
Lemma keyword_table_eq (df : DataFrame) :
  numeric_ready df → keyword_table df = Ok (grouped_table df).
Proof.
  intros Hr. unfold keyword_table. rewrite groupby_eq by done.
  cbn [mbind result_bind]. unfold ratio_series.
  do 5 ratio_step.
  unfold applymap, grouped_table, grouped_columns. cbn [columns rows].
  rewrite <-!list_fmap_compose. do 2 f_equal.
Qed.

(** ** Lemmas: the operations of a constructed engine

    Every operation of an engine at a ready frame returns and leaves the
    heap as it is. *)

Lemma total_eq (self : MetricsAnalysisEngine) (h : heap) (df : DataFrame) (c : string) :
  engine_at self h df → c ∈ numeric_cols →
  column_sum self c h = (Ok (frame_total df c), h).
Proof. intros [Hh Hr] Hc. by apply column_sum_eq. Qed.

Ltac numeric_col := by_compute.

Ltac run_totals H :=
  unfold get_total_impressions, get_total_clicks, get_total_spend,
         get_total_sales, get_total_orders;
  repeat (erewrite bind_ok by (apply (total_eq _ _ _ _ H); numeric_col)).

Lemma calculate_ctr_eq (self : MetricsAnalysisEngine) (h : heap) (df : DataFrame) :
  engine_at self h df →
  calculate_ctr self h
  = (Ok (guarded_percent (frame_total df "Clicks") (frame_total df "Impressions")), h).
Proof. intros H. unfold calculate_ctr. by run_totals H. Qed.

Lemma calculate_cpc_eq (self : MetricsAnalysisEngine) (h : heap) (df : DataFrame) :
  engine_at self h df →
  calculate_cpc self h
  = (Ok (guarded_ratio (frame_total df "Spend") (frame_total df "Clicks")), h).
Proof. intros H. unfold calculate_cpc. by run_totals H. Qed.

Lemma calculate_cvr_eq (self : MetricsAnalysisEngine) (h : heap) (df : DataFrame) :
  engine_at self h df →
  calculate_cvr self h
  = (Ok (guarded_percent (frame_total df "Orders") (frame_total df "Clicks")), h).
Proof. intros H. unfold calculate_cvr. by run_totals H. Qed.

Lemma calculate_acos_eq (self : MetricsAnalysisEngine) (h : heap) (df : DataFrame) :
  engine_at self h df →
  calculate_acos self h
  = (Ok (guarded_percent (frame_total df "Spend") (frame_total df "Sales")), h).
Proof. intros H. unfold calculate_acos. by run_totals H. Qed.

Lemma calculate_roas_eq (self : MetricsAnalysisEngine) (h : heap) (df : DataFrame) :
  engine_at self h df →
  calculate_roas self h
  = (Ok (guarded_ratio (frame_total df "Sales") (frame_total df "Spend")), h).
Proof. intros H. unfold calculate_roas. by run_totals H. Qed.

Lemma summary_eq (self : MetricsAnalysisEngine) (h : heap) (df : DataFrame) :
  engine_at self h df →
  get_campaign_performance_summary self h = (Ok (summary_of df), h).
Proof.
  intros H. unfold get_campaign_performance_summary.
  run_totals H.
  erewrite bind_ok by (by apply calculate_ctr_eq).
  erewrite bind_ok by (by apply calculate_cpc_eq).
  erewrite bind_ok by (by apply calculate_cvr_eq).
  erewrite bind_ok by (by apply calculate_acos_eq).
  erewrite bind_ok by (by apply calculate_roas_eq).
  done.
Qed.

Lemma keyword_performance_eq (self : MetricsAnalysisEngine) (h : heap) (df : DataFrame) :
  engine_at self h df →
  get_keyword_performance self h
  = (Ok (if has_column df keyword_column && has_column df campaign_column
         then grouped_table df else empty_frame), h).
Proof.
  intros [Hh Hr]. unfold get_keyword_performance.
  erewrite bind_ok by (by apply load_frame_eq).
  destruct (has_column df keyword_column), (has_column df campaign_column); try done.
  cbn [negb orb andb].
  erewrite bind_ok; last first.
  { apply for_each_skip. intros c Hc.
    erewrite bind_ok by (by apply load_frame_eq).
    rewrite (proj2 (has_column_true df c)); [done|].
    apply Hr. exact Hc. }
  erewrite bind_ok by (by apply load_frame_eq).
  unfold lift. by rewrite keyword_table_eq.
Qed.

Lemma run_op_eq (self : MetricsAnalysisEngine) (h : heap) (df : DataFrame) (o : engine_op) :
  engine_at self h df → run_op self o h = (Ok tt, h).
Proof.
  intros H. destruct o; unfold run_op.
  1-5: by run_totals H.
  - by erewrite bind_ok by (apply (calculate_ctr_eq _ _ _ H)).
  - by erewrite bind_ok by (apply (calculate_cpc_eq _ _ _ H)).
  - by erewrite bind_ok by (apply (calculate_cvr_eq _ _ _ H)).
  - by erewrite bind_ok by (apply (calculate_acos_eq _ _ _ H)).
  - by erewrite bind_ok by (apply (calculate_roas_eq _ _ _ H)).
  - by erewrite bind_ok by (apply (summary_eq _ _ _ H)).
  - by erewrite bind_ok by (apply (keyword_performance_eq _ _ _ H)).
Qed.

Lemma run_ops_eq (self : MetricsAnalysisEngine) (h : heap) (df : DataFrame)
    (ops : list engine_op) :
  engine_at self h df → for_each ops (run_op self) h = (Ok tt, h).
Proof. intros H. apply for_each_skip. intros o _. by apply (run_op_eq _ _ df). Qed.

(** After construction the engine is at the preprocessed frame. *)
Lemma engine_at_init (h : heap) (df : DataFrame) :
  engine_at (mkMetricsAnalysisEngine (fresh (dom h)))
            (<[fresh (dom h) := PyDataFrame (preprocess_frame df)]> h)
            (preprocess_frame df).
Proof. split; [apply lookup_insert_eq | apply preprocess_frame_ready]. Qed.

(** ** Lemmas: the recommendation rules *)

Lemma table_numeric (kd : DataFrame) (r : gmap string cell) (c : string) :
  grouped_rows_table kd = true → r ∈ rows kd → c ∈ metric_columns →
  has_column kd c = true → is_num (r !!! c) = true.
Proof.
  unfold grouped_rows_table. intros [Hnum _]%andb_true_iff Hr Hc Hhas.
  rewrite forallb_forall in Hnum. specialize (Hnum r (proj1 (list_elem_of_In _ _) Hr)).
  rewrite forallb_forall in Hnum. specialize (Hnum c (proj1 (list_elem_of_In _ _) Hc)).
  by rewrite Hhas in Hnum.
Qed.

Lemma table_dims (kd : DataFrame) :
  grouped_rows_table kd = true → rows kd ≠ [] →
  has_column kd keyword_column = true ∧ has_column kd campaign_column = true.
Proof.
  unfold grouped_rows_table. intros [_ Hd]%andb_true_iff Hne.
  apply orb_true_iff in Hd as [Hd|Hd].
  - by apply bool_decide_eq_true in Hd.
  - by apply andb_true_iff in Hd.
Qed.

Lemma series_gt_table (kd : DataFrame) (c : string) (y : Z) :
  grouped_rows_table kd = true → c ∈ metric_columns → has_column kd c = true →
  series_gt (column_values kd c) (num_of_Z y)
  = Ok ((λ r : gmap string cell, cell_gt (r !!! c) y) <$> rows kd).
Proof.
  intros Hkd Hc Hhas. unfold series_gt, column_values.
  rewrite (mapM_result_ok _ (λ c, cell_gt c y)).
  - by rewrite <-list_fmap_compose.
  - intros x (r & -> & Hr)%list_elem_of_fmap.
    pose proof (table_numeric kd r c Hkd Hr Hc Hhas) as Hn.
    unfold cell_gt. by destruct (r !!! c).
Qed.

Lemma series_lt_table (kd : DataFrame) (c : string) (y : Z) :
  grouped_rows_table kd = true → c ∈ metric_columns → has_column kd c = true →
  series_lt (column_values kd c) (num_of_Z y)
  = Ok ((λ r : gmap string cell, cell_lt (r !!! c) y) <$> rows kd).
Proof.
  intros Hkd Hc Hhas. unfold series_lt, column_values.
  rewrite (mapM_result_ok _ (λ c, cell_lt c y)).
  - by rewrite <-list_fmap_compose.
  - intros x (r & -> & Hr)%list_elem_of_fmap.
    pose proof (table_numeric kd r c Hkd Hr Hc Hhas) as Hn.
    unfold cell_lt. by destruct (r !!! c).
Qed.

Lemma mask_and_fmap {A} (f g : A → bool) (l : list A) :
  mask_and (f <$> l) (g <$> l) = (λ x, f x && g x) <$> l.
Proof.
  unfold mask_and. induction l as [|a l IH]; [done|].
  rewrite !fmap_cons. simpl. by rewrite IH.
Qed.

Lemma for_each_append (kpi : gmap string num) (kd : DataFrame)
    (body : gmap string cell → M RecommendationEngine unit)
    (msg : gmap string cell → string) (sel : list (gmap string cell)) (acc : list string) :
  (∀ r s, r ∈ sel → body r s = append_recommendation (msg r) s) →
  for_each sel body (mkRecommendationEngine kpi kd acc)
  = (Ok tt, mkRecommendationEngine kpi kd (acc ++ (msg <$> sel))).
Proof.
  revert acc. induction sel as [|r sel IH]; intros acc Hb.
  - simpl. by rewrite app_nil_r.
  - rewrite for_each_cons.
    erewrite bind_ok by (rewrite Hb by apply list_elem_of_here; reflexivity).
    cbn [kpi_data keyword_data recommendations].
    rewrite IH by (intros; apply Hb; by apply list_elem_of_further).
    by rewrite fmap_cons, <-app_assoc.
Qed.

(** The tail of every rule: one advisory per selected row, in row order. *)
Lemma emit_rows (kpi : gmap string num) (kd : DataFrame)
    (body : gmap string cell → M RecommendationEngine unit)
    (msg : gmap string cell → string) (sel : list (gmap string cell)) (acc : list string) :
  columns kd ≠ [] →
  (∀ r s, r ∈ sel → body r s = append_recommendation (msg r) s) →
  (if negb (frame_is_empty (mkDataFrame (columns kd) sel))
   then for_each sel body else mret tt) (mkRecommendationEngine kpi kd acc)
  = (Ok tt, mkRecommendationEngine kpi kd (acc ++ (msg <$> sel))).
Proof.
  intros Hcols Hb. unfold frame_is_empty. cbn [columns rows].
  case_bool_decide as Hc; [done|]. cbn [orb].
  case_bool_decide as Hsel.
  - subst sel. simpl. by rewrite app_nil_r.
  - by apply for_each_append.
Qed.

Lemma columns_nonempty (kd : DataFrame) (c : string) :
  has_column kd c = true → columns kd ≠ [].
Proof. intros Hc%has_column_true E. rewrite E in Hc. by apply not_elem_of_nil in Hc. Qed.

Lemma row_getitem_ok (kd : DataFrame) (sel : list (gmap string cell))
    (r : gmap string cell) (c : string) :
  has_column kd c = true → row_getitem (mkDataFrame (columns kd) sel) r c = Ok (r !!! c).
Proof. intros Hc. unfold row_getitem, has_column in *. cbn [columns]. by rewrite Hc. Qed.

Lemma py_format_2f_num (c : cell) :
  is_num c = true → py_format_2f c = Ok (format_2f (cell_value c)).
Proof. by destruct c. Qed.

Lemma filter_subset {A} (P : A → Prop) `{∀ x, Decision (P x)} (l : list A) (x : A) :
  x ∈ filter P l → x ∈ l.
Proof. rewrite list_elem_of_filter. tauto. Qed.

Ltac metric_col := by_compute.

Ltac skip_rule := cbn [andb]; simpl; by rewrite app_nil_r.

Lemma mask_gt_step {B} (kd : DataFrame) (c : string) (y : Z)
    (k : list bool → M RecommendationEngine B) (s : RecommendationEngine) :
  grouped_rows_table kd = true → c ∈ metric_columns → has_column kd c = true →
  (lift (getitem kd c) ≫= λ s1, lift (series_gt s1 (num_of_Z y)) ≫= k) s
  = k ((λ r : gmap string cell, cell_gt (r !!! c) y) <$> rows kd) s.
Proof.
  intros Hkd Hc Hhas. unfold getitem. rewrite Hhas.
  unfold mbind at 1, M_bind at 1, lift at 1.
  rewrite series_gt_table by done. done.
Qed.

Lemma mask_lt_step {B} (kd : DataFrame) (c : string) (y : Z)
    (k : list bool → M RecommendationEngine B) (s : RecommendationEngine) :
  grouped_rows_table kd = true → c ∈ metric_columns → has_column kd c = true →
  (lift (getitem kd c) ≫= λ s1, lift (series_lt s1 (num_of_Z y)) ≫= k) s
  = k ((λ r : gmap string cell, cell_lt (r !!! c) y) <$> rows kd) s.
Proof.
  intros Hkd Hc Hhas. unfold getitem. rewrite Hhas.
  unfold mbind at 1, M_bind at 1, lift at 1.
  rewrite series_lt_table by done. done.
Qed.

Lemma selected_row_dims (kd : DataFrame) (P : gmap string cell → Prop)
    `{∀ x, Decision (P x)} (r : gmap string cell) :
  grouped_rows_table kd = true → r ∈ filter P (rows kd) →
  r ∈ rows kd ∧ has_column kd keyword_column = true ∧ has_column kd campaign_column = true.
Proof.
  intros Hkd Hr. pose proof (filter_subset _ _ _ Hr) as Hr'. split; [done|].
  apply table_dims; [done|]. intros E. rewrite E in Hr'. by apply not_elem_of_nil in Hr'.
Qed.

Lemma rule_high_acos_eq (kpi : gmap string num) (kd : DataFrame) (acc : list string) :
  grouped_rows_table kd = true →
  rule_high_acos (mkRecommendationEngine kpi kd acc)
  = (Ok tt, mkRecommendationEngine kpi kd (acc ++ rule1_advisories kd)).
Proof.
  intros Hkd. unfold rule_high_acos, rule1_advisories.
  unfold mbind at 1, M_bind at 1, get_state. cbn [keyword_data].
  unfold has_columns, rule1_columns. cbn [forallb].
  destruct (has_column kd "ACOS") eqn:Hc1; try skip_rule.
  cbn [andb].
    rewrite mask_gt_step by (done || metric_col).
    unfold boolean_index. rewrite select_rows_fmap.
    apply emit_rows; [by eapply columns_nonempty|].
    intros r s Hr. destruct (selected_row_dims kd _ r Hkd Hr) as (Hr' & Hk & Hca).
    do 3 (erewrite lift_ok_bind by (by apply row_getitem_ok)).
    erewrite lift_ok_bind; [done|].
    apply py_format_2f_num, (table_numeric kd); [done..|metric_col|done].
Qed.

Lemma rule_low_ctr_eq (kpi : gmap string num) (kd : DataFrame) (acc : list string) :
  grouped_rows_table kd = true →
  rule_low_ctr (mkRecommendationEngine kpi kd acc)
  = (Ok tt, mkRecommendationEngine kpi kd (acc ++ rule2_advisories kd)).
Proof.
  intros Hkd. unfold rule_low_ctr, rule2_advisories.
  unfold mbind at 1, M_bind at 1, get_state. cbn [keyword_data].
  unfold has_columns, rule2_columns. cbn [forallb].
  destruct (has_column kd "CTR") eqn:Hc1; destruct (has_column kd "Total_Impressions") eqn:Hc2; try skip_rule.
  cbn [andb].
    rewrite mask_lt_step by (done || metric_col).
    rewrite mask_gt_step by (done || metric_col).
    unfold boolean_index. rewrite mask_and_fmap, select_rows_fmap.
    apply emit_rows; [by eapply columns_nonempty|].
    intros r s Hr. destruct (selected_row_dims kd _ r Hkd Hr) as (Hr' & Hk & Hca).
    do 3 (erewrite lift_ok_bind by (by apply row_getitem_ok)).
    erewrite lift_ok_bind; [done|].
    apply py_format_2f_num, (table_numeric kd); [done..|metric_col|done].
Qed.

Lemma rule_high_performer_eq (kpi : gmap string num) (kd : DataFrame) (acc : list string) :
  grouped_rows_table kd = true →
  rule_high_performer (mkRecommendationEngine kpi kd acc)
  = (Ok tt, mkRecommendationEngine kpi kd (acc ++ rule3_advisories kd)).
Proof.
  intros Hkd. unfold rule_high_performer, rule3_advisories.
  unfold mbind at 1, M_bind at 1, get_state. cbn [keyword_data].
  unfold has_columns, rule3_columns. cbn [forallb].
  destruct (has_column kd "ACOS") eqn:Hc1; destruct (has_column kd "Total_Sales") eqn:Hc2; try skip_rule.
  cbn [andb].
    rewrite mask_lt_step by (done || metric_col).
    rewrite mask_gt_step by (done || metric_col).
    unfold boolean_index. rewrite mask_and_fmap, select_rows_fmap.
    apply emit_rows; [by eapply columns_nonempty|].
    intros r s Hr. destruct (selected_row_dims kd _ r Hkd Hr) as (Hr' & Hk & Hca).
    do 3 (erewrite lift_ok_bind by (by apply row_getitem_ok)).
    erewrite lift_ok_bind;
      [|apply py_format_2f_num, (table_numeric kd); [done..|metric_col|done]].
    erewrite lift_ok_bind by (by apply row_getitem_ok).
    done.
Qed.

Lemma rule_ineffective_spend_eq (kpi : gmap string num) (kd : DataFrame)
    (acc : list string) :
  grouped_rows_table kd = true →
  rule_ineffective_spend (mkRecommendationEngine kpi kd acc)
  = (Ok tt, mkRecommendationEngine kpi kd (acc ++ rule4_advisories kd)).
Proof.
  intros Hkd. unfold rule_ineffective_spend, rule4_advisories.
  unfold mbind at 1, M_bind at 1, get_state. cbn [keyword_data].
  unfold has_columns, rule4_columns. cbn [forallb].
  destruct (has_column kd "Total_Spend") eqn:Hc1; destruct (has_column kd "Total_Orders") eqn:Hc2; destruct (has_column kd "Total_Clicks") eqn:Hc3; try skip_rule.
  cbn [andb].
    rewrite mask_gt_step by (done || metric_col).
    rewrite mask_lt_step by (done || metric_col).
    rewrite mask_gt_step by (done || metric_col).
    unfold boolean_index. rewrite !mask_and_fmap, select_rows_fmap.
    apply emit_rows; [by eapply columns_nonempty|].
    intros r s Hr. destruct (selected_row_dims kd _ r Hkd Hr) as (Hr' & Hk & Hca).
    do 3 (erewrite lift_ok_bind by (by apply row_getitem_ok)).
    done.
Qed.

(** [generate_recommendations] on a table of grouped rows: the advisories of
    the four rules in order, or the sentinel, and the same list is left in
    [self.recommendations]. *)
Lemma generate_eq (kpi : gmap string num) (kd : DataFrame) (acc : list string) :
  grouped_rows_table kd = true →
  let out := or_sentinel (rule1_advisories kd ++ rule2_advisories kd
                          ++ rule3_advisories kd ++ rule4_advisories kd) in
  generate_recommendations (mkRecommendationEngine kpi kd acc)
  = (Ok out, mkRecommendationEngine kpi kd out).
Proof.
  intros Hkd out. unfold generate_recommendations.
  unfold mbind at 1, M_bind at 1, set_recommendations. cbn [kpi_data keyword_data].
  erewrite bind_ok by (by apply rule_high_acos_eq).
  erewrite bind_ok by (by apply rule_low_ctr_eq).
  erewrite bind_ok by (by apply rule_high_performer_eq).
  erewrite bind_ok by (by apply rule_ineffective_spend_eq).
  rewrite app_nil_l, <-!app_assoc. fold out.
  unfold add_sentinel_if_none, or_sentinel in *.
  unfold mbind at 1, M_bind at 1. unfold mbind at 1, M_bind at 1, get_state.
  cbn [recommendations]. subst out.
  by destruct (rule1_advisories kd ++ _).
Qed.

(** ** Properties of the aggregation engine *)

Lemma frame_total_preprocess (df : DataFrame) (c : string) :
  c ∈ numeric_cols →
  frame_total (preprocess_frame df) c = sum_num (coerced_value df c <$> rows df).
Proof.
  intros Hc. destruct (preprocess_frame_shape df) as (f & Hrows & _ & Hnum & _).
  unfold frame_total, column_values. rewrite Hrows, <-!list_fmap_compose.
  f_equal. apply list_fmap_ext. intros _ r _. unfold compose. by rewrite Hnum.
Qed.

Lemma with_engine_total (h : heap) (dataframe : loc) (df : DataFrame) (c : string) :
  h !! dataframe = Some (PyDataFrame df) → c ∈ numeric_cols →
  (with_engine dataframe (λ self, column_sum self c) h).1
  = Ok (sum_num (coerced_value df c <$> rows df)).
Proof.
  intros Hh Hc. rewrite (with_engine_eq h dataframe df) by done.
  rewrite (total_eq _ _ _ c (engine_at_init h df)) by done.
  cbn [fst]. by rewrite frame_total_preprocess.
Qed.

(** C4: each of the five totals returned by an engine built from a dataset
    is the arithmetic sum, over all rows, of the coerced values of its column
    (a number counts as itself, text that is not a number and missing values
    count as 0), and it is 0 when the dataset has no such column. *)
Theorem C4_totals_are_sums_of_coerced_columns (h : heap) (dataframe : loc) (df : DataFrame) :
  h !! dataframe = Some (PyDataFrame df) →
  Forall (λ cg : string * (MetricsAnalysisEngine → M heap num),
            (with_engine dataframe cg.2 h).1
            = Ok (sum_num (coerced_value df cg.1 <$> rows df))
            ∧ (cg.1 ∉ columns df → (with_engine dataframe cg.2 h).1 = Ok (Finite 0)))
         total_getters
  ∧ (∀ c r x, c ∈ columns df → r !!! c = CNum x → isnan x = false →
       coerced_value df c r = x)
  ∧ (∀ c r, c ∈ columns df → r !!! c = CNum NaN → coerced_value df c r = Finite 0)
  ∧ (∀ c r s, c ∈ columns df → r !!! c = CStr s → parse_numeric s = None →
       coerced_value df c r = Finite 0).
Proof.
  intros Hh. split; [|split; [|split]].
  - unfold total_getters.
    repeat apply Forall_cons_2; try apply Forall_nil_2; cbn [fst snd];
      (split; [by apply with_engine_total; [|by_compute]|]);
      intros Hc%has_column_false;
      (etrans; [by apply with_engine_total; [|by_compute]|]);
      unfold coerced_value; rewrite Hc; by rewrite sum_num_zeros.
  - intros c r x Hc%has_column_true Hr Hx. unfold coerced_value, fillna_num.
    rewrite Hc, Hr. simpl. by rewrite Hx.
  - intros c r Hc%has_column_true Hr. unfold coerced_value. by rewrite Hc, Hr.
  - intros c r s Hc%has_column_true Hr Hs. unfold coerced_value. rewrite Hc, Hr. simpl.
    by rewrite Hs.
Qed.

(** C7: construction from an object that is not a DataFrame raises
    ValueError at once, leaving the heap as it was; construction from any
    DataFrame returns an engine, and every sequence of operations on it runs
    to the end without raising. *)
Theorem C7_only_a_non_dataframe_input_raises (h : heap) (dataframe : loc) :
  match h !! dataframe with
  | Some (PyDataFrame df) =>
      ∃ self h',
        MetricsAnalysisEngine__init__ dataframe h = (Ok self, h')
        ∧ ∀ ops : list engine_op, for_each ops (run_op self) h' = (Ok tt, h')
  | _ =>
      MetricsAnalysisEngine__init__ dataframe h
      = (Raise (ValueError "Input must be a pandas DataFrame"), h)
  end.
Proof.
  destruct (h !! dataframe) as [o|] eqn:Hh.
  - destruct o as [df| | |]; try (apply init_not_frame; intros df; by rewrite Hh).
    eexists _, _. split; [by apply init_eq|].
    intros ops. apply (run_ops_eq _ _ (preprocess_frame df)), engine_at_init.
  - apply init_not_frame. intros df. by rewrite Hh.
Qed.

(** C9: building an engine from the caller's dataset and running any
    sequence of operations leaves the caller's object, and every other object
    that existed before, exactly as it was; the engine works on an object of
    its own that did not exist before. *)
Theorem C9_the_callers_dataset_is_never_mutated (h : heap) (dataframe : loc)
    (ops : list engine_op) :
  let h' := (with_engine dataframe (λ self, for_each ops (run_op self)) h).2 in
  h' !! dataframe = h !! dataframe
  ∧ (∀ l, is_Some (h !! l) → h' !! l = h !! l)
  ∧ (∀ self h1, MetricsAnalysisEngine__init__ dataframe h = (Ok self, h1) →
       self_df self ≠ dataframe ∧ h !! self_df self = None).
Proof.
  assert (Hfresh : h !! fresh (dom h) = None) by apply not_elem_of_dom, is_fresh.
  destruct (h !! dataframe) as [o|] eqn:Hh.
  - destruct o as [df| | |].
    2-4: assert (Hinit := init_not_frame h dataframe);
         rewrite Hinit by (intros df; by rewrite Hh);
         unfold with_engine; erewrite bind_raise by (apply Hinit; intros df; by rewrite Hh);
         cbn [snd]; split; [done|split; [done|]]; by intros self h1 [=].
    rewrite (with_engine_eq h dataframe df) by done.
    rewrite (run_ops_eq _ _ (preprocess_frame df)) by apply engine_at_init.
    cbn [snd]. split; [|split].
    + rewrite lookup_insert_ne; [done|]. intros E. by rewrite E, Hh in Hfresh.
    + intros l [o Hl]. rewrite lookup_insert_ne; [done|]. intros E.
      by rewrite E, Hl in Hfresh.
    + rewrite (init_eq h dataframe df) by done. intros self h1 [= <- <-]. simpl.
      split; [|done]. intros E. by rewrite E, Hh in Hfresh.
  - assert (Hinit := init_not_frame h dataframe).
    rewrite Hinit by (intros df; by rewrite Hh).
    unfold with_engine. erewrite bind_raise by (apply Hinit; intros df; by rewrite Hh).
    cbn [snd]. split; [done|split; [done|]]. by intros self h1 [=].
Qed.

Lemma guarded_percent_negative (x t : num) :
  num_lt t (Finite 0) = true → guarded_percent x t = Finite 0.
Proof.
  unfold guarded_percent, num_gt. destruct t as [q| | |]; try done.
  simpl. intros Hq%bool_decide_eq_true. rewrite bool_decide_eq_false_2; [done|].
  intros Hq'. by apply (Qclt_not_le _ _ Hq), Qclt_le_weak.
Qed.

Lemma guarded_ratio_negative (x t : num) :
  num_lt t (Finite 0) = true → guarded_ratio x t = Finite 0.
Proof.
  unfold guarded_ratio, num_gt. destruct t as [q| | |]; try done.
  simpl. intros Hq%bool_decide_eq_true. rewrite bool_decide_eq_false_2; [done|].
  intros Hq'. by apply (Qclt_not_le _ _ Hq), Qclt_le_weak.
Qed.

(** C10: preprocessing turns only text that is not a number and missing
    values into 0, so a negative number stays negative; and since each overall
    ratio is guarded by "denominator total greater than 0", a negative total
    of Impressions, Clicks, Sales or Spend makes CTR, CPC and CVR, ACOS, ROAS
    respectively 0. *)
Theorem C10_negative_denominator_totals_give_zero (h : heap) (dataframe : loc)
    (df : DataFrame) :
  h !! dataframe = Some (PyDataFrame df) →
  (∀ x, isnan x = false → coerce_cell (CNum x) = CNum x)
  ∧ coerce_cell (CNum NaN) = CNum (Finite 0)
  ∧ (∀ s, parse_numeric s = None → coerce_cell (CStr s) = CNum (Finite 0))
  ∧ (∀ t, (with_engine dataframe get_total_impressions h).1 = Ok t →
       num_lt t (Finite 0) = true →
       (with_engine dataframe calculate_ctr h).1 = Ok (Finite 0))
  ∧ (∀ t, (with_engine dataframe get_total_clicks h).1 = Ok t →
       num_lt t (Finite 0) = true →
       (with_engine dataframe calculate_cpc h).1 = Ok (Finite 0)
       ∧ (with_engine dataframe calculate_cvr h).1 = Ok (Finite 0))
  ∧ (∀ t, (with_engine dataframe get_total_sales h).1 = Ok t →
       num_lt t (Finite 0) = true →
       (with_engine dataframe calculate_acos h).1 = Ok (Finite 0))
  ∧ (∀ t, (with_engine dataframe get_total_spend h).1 = Ok t →
       num_lt t (Finite 0) = true →
       (with_engine dataframe calculate_roas h).1 = Ok (Finite 0)).
Proof.
  intros Hh.
  pose proof (engine_at_init h df) as Hat.
  rewrite !(with_engine_eq h dataframe df) by done.
  unfold get_total_impressions, get_total_clicks, get_total_sales, get_total_spend.
  rewrite !(total_eq _ _ _ _ Hat) by by_compute.
  rewrite (calculate_ctr_eq _ _ _ Hat), (calculate_cpc_eq _ _ _ Hat),
    (calculate_cvr_eq _ _ _ Hat), (calculate_acos_eq _ _ _ Hat),
    (calculate_roas_eq _ _ _ Hat).
  cbn [fst].
  split; [|split; [|split; [|split; [|split; [|split]]]]].
  - intros x Hx. unfold coerce_cell, fillna_num. simpl. by rewrite Hx.
  - done.
  - intros s Hs. unfold coerce_cell. simpl. by rewrite Hs.
  - intros t [= <-] Ht. by rewrite guarded_percent_negative.
  - intros t [= <-] Ht. by rewrite guarded_ratio_negative, guarded_percent_negative.
  - intros t [= <-] Ht. by rewrite guarded_percent_negative.
  - intros t [= <-] Ht. by rewrite guarded_ratio_negative.
Qed.

(** ** Properties of the recommendation generator *)

Lemma filter_length_b2n {A} (f : A → bool) (l : list A) :
  length (filter (λ x, f x) l) = sum_list ((λ x, Nat.b2n (f x)) <$> l).
Proof.
  induction l as [|a l IH]; [done|].
  rewrite filter_cons, fmap_cons. simpl. destruct (f a); simpl; by rewrite IH.
Qed.

Lemma sum_list_pointwise {A} (f g : A → nat) (l : list A) :
  sum_list ((λ x, f x + g x)%nat <$> l) = (sum_list (f <$> l) + sum_list (g <$> l))%nat.
Proof. induction l as [|a l IH]; [done|]. rewrite !fmap_cons. simpl. lia. Qed.

(** C3: on a table of grouped rows, [generate_recommendations] returns the
    advisories of rule 1 (ACOS > 50), then those of rule 2 (CTR < 1 and
    Total_Impressions > 1000), then those of rule 3 (ACOS < 20 and
    Total_Sales > 100), then those of rule 4 (Total_Spend > 50 and
    Total_Orders < 1 and Total_Clicks > 10); the advisories of a rule are one
    per row that satisfies it, in the order of the rows; so with all rule
    columns present the number of advisories is the sum over the rows of the
    number of rules each row satisfies. *)
Theorem C3_rules_fire_in_order_one_advisory_per_match (kpi : gmap string num)
    (kd : DataFrame) :
  grouped_rows_table kd = true →
  (generate_recommendations (RecommendationEngine__init__ kpi kd)).1
  = Ok (or_sentinel (rule1_advisories kd ++ rule2_advisories kd
                     ++ rule3_advisories kd ++ rule4_advisories kd))
  ∧ (has_columns kd (rule1_columns ++ rule2_columns ++ rule3_columns ++ rule4_columns) = true →
       rule1_advisories kd = advice_high_acos <$> filter (λ r, fires_high_acos r) (rows kd)
       ∧ rule2_advisories kd = advice_low_ctr <$> filter (λ r, fires_low_ctr r) (rows kd)
       ∧ rule3_advisories kd
         = advice_high_performer <$> filter (λ r, fires_high_performer r) (rows kd)
       ∧ rule4_advisories kd
         = advice_ineffective_spend <$> filter (λ r, fires_ineffective_spend r) (rows kd)
       ∧ length (rule1_advisories kd ++ rule2_advisories kd
                 ++ rule3_advisories kd ++ rule4_advisories kd)
         = sum_list (rules_satisfied <$> rows kd)).
Proof.
  intros Hkd. split.
  - unfold RecommendationEngine__init__. by rewrite generate_eq.
  - unfold has_columns, rule1_columns, rule2_columns, rule3_columns, rule4_columns.
    cbn [app forallb]. intros Hc.
    repeat match goal with
           | H : _ && _ = true |- _ => apply andb_true_iff in H as [? ?]
           end.
    unfold rule1_advisories, rule2_advisories, rule3_advisories, rule4_advisories,
      has_columns, rule1_columns, rule2_columns, rule3_columns, rule4_columns.
    cbn [forallb].
    repeat match goal with
           | H : has_column _ _ = true |- _ => rewrite !H; clear H
           end.
    cbn [andb].
    unfold matches_high_acos, matches_low_ctr, matches_high_performer,
      matches_ineffective_spend.
    repeat split; try done.
    rewrite !length_app, !length_fmap, !filter_length_b2n.
    unfold rules_satisfied. rewrite !sum_list_pointwise. lia.
Qed.

(** C5: when the four rules produce no advisory for a table of grouped
    rows, [generate_recommendations] returns exactly the sentinel sentence;
    for such a table it always returns a list, and whatever the summary and
    the table, a list it returns is never empty. *)
Theorem C5_sentinel_when_no_rule_matches (kpi : gmap string num) (kd : DataFrame) :
  grouped_rows_table kd = true →
  (rule1_advisories kd ++ rule2_advisories kd
   ++ rule3_advisories kd ++ rule4_advisories kd = [] →
   (generate_recommendations (RecommendationEngine__init__ kpi kd)).1
   = Ok [no_recommendation_message])
  ∧ (∃ recs, (generate_recommendations (RecommendationEngine__init__ kpi kd)).1 = Ok recs
             ∧ recs ≠ [])
  ∧ (∀ (kpi' : gmap string num) (kd' : DataFrame) (recs : list string),
       (generate_recommendations (RecommendationEngine__init__ kpi' kd')).1 = Ok recs →
       recs ≠ []).
Proof.
  intros Hkd. split; [|split].
  - intros Hnone. unfold RecommendationEngine__init__. rewrite generate_eq by done.
    by rewrite Hnone.
  - unfold RecommendationEngine__init__. rewrite generate_eq by done.
    eexists. split; [done|]. unfold or_sentinel. by destruct (rule1_advisories kd ++ _).
  - clear. intros kpi kd recs. unfold generate_recommendations.
    unfold mbind, M_bind.
    destruct (set_recommendations [] _) as [[[]|] s0]; [|done].
    destruct (rule_high_acos s0) as [[[]|] s1]; [|done].
    destruct (rule_low_ctr s1) as [[[]|] s2]; [|done].
    destruct (rule_high_performer s2) as [[[]|] s3]; [|done].
    destruct (rule_ineffective_spend s3) as [[[]|] s4]; [|done].
    unfold add_sentinel_if_none, mbind, M_bind, get_state, append_recommendation.
    destruct (recommendations s4) as [|a l] eqn:E; simpl.
    + intros [= <-]. by destruct (recommendations s4).
    + rewrite E. by intros [= <-].
Qed.

Lemma keyword_performance_missing_dimension (h : heap) (dataframe : loc) (df : DataFrame) :
  h !! dataframe = Some (PyDataFrame df) →
  keyword_column ∉ columns df ∨ campaign_column ∉ columns df →
  with_engine dataframe get_keyword_performance h
  = (Ok empty_frame, <[fresh (dom h) := PyDataFrame (preprocess_frame df)]> h).
Proof.
  intros Hh Hmiss. rewrite (with_engine_eq h dataframe df) by done.
  rewrite (keyword_performance_eq _ _ _ (engine_at_init h df)).
  destruct (preprocess_frame_shape df) as (_ & _ & Hcols & _).
  assert (has_column (preprocess_frame df) keyword_column
          && has_column (preprocess_frame df) campaign_column = false) as ->; [|done].
  apply andb_false_iff.
  destruct Hmiss as [Hm|Hm]; [left|right]; apply has_column_false; rewrite Hcols;
    intros [?|Hn]; try done; revert Hn; by_compute.
Qed.

(** C6: missing columns are not errors. An engine whose dataset lacks either
    dimension column returns the empty table from [get_keyword_performance]
    without raising. In [generate_recommendations], a rule for which the
    table lacks a column of its condition does nothing at all (no advisory,
    no error, the state of the generator is left as it is), whatever the
    table holds; and on a table of grouped rows the result is then the one
    made of the advisories of the other rules. *)
Theorem C6_missing_columns_are_not_errors (h : heap) (dataframe : loc) (df : DataFrame)
    (kpi : gmap string num) (kd : DataFrame) :
  h !! dataframe = Some (PyDataFrame df) →
  (keyword_column ∉ columns df ∨ campaign_column ∉ columns df →
   (with_engine dataframe get_keyword_performance h).1 = Ok empty_frame)
  ∧ (∀ self, keyword_data self = kd →
       (has_columns kd rule1_columns = false → rule_high_acos self = (Ok tt, self))
       ∧ (has_columns kd rule2_columns = false → rule_low_ctr self = (Ok tt, self))
       ∧ (has_columns kd rule3_columns = false → rule_high_performer self = (Ok tt, self))
       ∧ (has_columns kd rule4_columns = false →
            rule_ineffective_spend self = (Ok tt, self)))
  ∧ (grouped_rows_table kd = true →
     let result := (generate_recommendations (RecommendationEngine__init__ kpi kd)).1 in
     (has_columns kd rule1_columns = false →
        result = Ok (or_sentinel (rule2_advisories kd ++ rule3_advisories kd
                                  ++ rule4_advisories kd)))
     ∧ (has_columns kd rule2_columns = false →
        result = Ok (or_sentinel (rule1_advisories kd ++ rule3_advisories kd
                                  ++ rule4_advisories kd)))
     ∧ (has_columns kd rule3_columns = false →
        result = Ok (or_sentinel (rule1_advisories kd ++ rule2_advisories kd
                                  ++ rule4_advisories kd)))
     ∧ (has_columns kd rule4_columns = false →
        result = Ok (or_sentinel (rule1_advisories kd ++ rule2_advisories kd
                                  ++ rule3_advisories kd)))).
Proof.
  intros Hh. split; [|split].
  - intros Hmiss. by rewrite (keyword_performance_missing_dimension h dataframe df).
  - intros self <-.
    unfold has_columns, rule1_columns, rule2_columns, rule3_columns, rule4_columns.
    cbn [forallb]. rewrite !andb_true_r.
    unfold rule_high_acos, rule_low_ctr, rule_high_performer, rule_ineffective_spend.
    unfold mbind, M_bind, get_state.
    repeat split; intros Hc.
    + by rewrite Hc.
    + by rewrite Hc.
    + by rewrite Hc.
    + rewrite <-andb_assoc. by rewrite Hc.
  - intros Hkd result. subst result.
    unfold RecommendationEngine__init__. rewrite generate_eq by done.
    repeat split; intros Hc.
    + unfold rule1_advisories. by rewrite Hc.
    + unfold rule2_advisories. by rewrite Hc.
    + unfold rule3_advisories. by rewrite Hc.
    + unfold rule4_advisories. rewrite Hc. by rewrite !app_nil_r.
Qed.

(** ** Properties of the grouped table *)

Lemma fmap_ext_elem {A B} (f g : A → B) (l : list A) :
  (∀ x, x ∈ l → f x = g x) → f <$> l = g <$> l.
Proof.
  intros H. apply list_fmap_ext. intros i x Hx. apply H. by eapply list_elem_of_lookup_2.
Qed.

Lemma filter_all {A} (P : A → Prop) `{∀ x, Decision (P x)} (l : list A) :
  (∀ x, x ∈ l → P x) → filter P l = l.
Proof.
  induction l as [|a l IH]; intros HP; [done|].
  rewrite filter_cons, decide_True by (apply HP, list_elem_of_here).
  f_equal. apply IH. intros x Hx. by apply HP, list_elem_of_further.
Qed.

Lemma filter_fmap_list {A B} (f : A → B) (P : B → Prop) `{∀ y, Decision (P y)}
    (l : list A) :
  filter P (f <$> l) = f <$> filter (λ x, P (f x)) l.
Proof.
  induction l as [|a l IH]; [done|].
  rewrite fmap_cons, !filter_cons, IH. by destruct (decide (P (f a))).
Qed.

Lemma sum_indicator {K} `{EqDecision K} (k : K) (x : num) (G : list K) :
  NoDup G → k ∈ G →
  sum_num ((λ g, if decide (k = g) then x else Finite 0) <$> G) = x.
Proof.
  induction 1 as [|g G Hg Hnd IH]; intros Hk; [by apply not_elem_of_nil in Hk|].
  rewrite fmap_cons, sum_num_cons. destruct (decide (k = g)) as [->|Hne].
  - rewrite (fmap_ext_elem _ (λ _, Finite 0)).
    + by rewrite sum_num_zeros, num_add_0_r.
    + intros g' Hg'. rewrite decide_False; [done|]. by intros <-.
  - rewrite num_add_0_l. apply IH. apply elem_of_cons in Hk as [?|?]; done.
Qed.

(** Group sums over a duplicate-free list of keys that covers every row add
    up to the sum over all rows. *)
Lemma sum_partition {A K} `{EqDecision K} (key : A → K) (v : A → num)
    (G : list K) (l : list A) :
  NoDup G → (∀ x, x ∈ l → key x ∈ G) →
  sum_num ((λ g, sum_num (v <$> filter (λ x, key x = g) l)) <$> G) = sum_num (v <$> l).
Proof.
  intros Hnd. induction l as [|a l IH]; intros Hcover.
  - apply (sum_num_zeros G).
  - rewrite fmap_cons, sum_num_cons.
    rewrite <-IH by (intros x Hx; by apply Hcover, list_elem_of_further).
    rewrite <-(sum_indicator (key a) (v a) G Hnd) by apply Hcover, list_elem_of_here.
    rewrite <-sum_num_pointwise. f_equal. apply list_fmap_ext. intros _ g _.
    rewrite filter_cons. destruct (decide (key a = g)); [done|].
    by rewrite num_add_0_l.
Qed.

Lemma group_keys_perm (keys : string * string) (rs : list (gmap string cell)) :
  group_keys keys rs ≡ₚ remove_dups (group_key keys <$> keyed_rows keys rs).
Proof. unfold group_keys. apply merge_sort_Permutation. Qed.

Lemma dim_ok_notna (c : cell) : dim_ok c = true → isna c = false.
Proof. by destruct c as [[]|]. Qed.

Lemma dimension_pair_grouped_row (df : DataFrame) (g : cell * cell) :
  dimension_pair (grouped_row df g) = (normalize_cell g.1, normalize_cell g.2).
Proof. unfold dimension_pair, group_key, grouped_row. cbn [fst snd]. by row_lookup. Qed.

Lemma grouped_row_total (df : DataFrame) (g : cell * cell) (out src : string) :
  (out, src) ∈ named_aggs →
  grouped_row df g !!! out = CNum (normalize (group_total df g src)).
Proof.
  unfold named_aggs. intros Hin.
  repeat (apply elem_of_cons in Hin as [[= -> ->]|Hin];
          [unfold grouped_row; row_lookup; apply normalize_cell_num|]).
  by apply not_elem_of_nil in Hin.
Qed.

(** The frame of an engine built from a dataset with complete dimensions,
    seen from the dataset. *)
Lemma preprocessed_groups (df : DataFrame) :
  dims_complete df = true →
  ∃ f : gmap string cell → gmap string cell,
    rows (preprocess_frame df) = f <$> rows df
    ∧ (∀ r c, c ∈ numeric_cols → f r !!! c = CNum (coerced_value df c r))
    ∧ (∀ r, dimension_pair (f r) = dimension_pair r)
    ∧ (∀ r, r ∈ rows df → dim_ok (dimension_pair r).1 = true
                          ∧ dim_ok (dimension_pair r).2 = true)
    ∧ group_keys (campaign_column, keyword_column) (rows (preprocess_frame df))
      ≡ₚ distinct_pairs df
    ∧ (∀ g src, src ∈ numeric_cols →
         group_total (preprocess_frame df) g src
         = sum_num (coerced_value df src <$> filter (λ r, dimension_pair r = g) (rows df))).
Proof.
  intros Hdims. destruct (preprocess_frame_shape df) as (f & Hrows & _ & Hnum & Hother).
  assert (Hpair : ∀ r, dimension_pair (f r) = dimension_pair r).
  { intros r. unfold dimension_pair, group_key. cbn [fst snd].
    rewrite !Hother; first done; by_compute. }
  assert (Hok : ∀ r, r ∈ rows df → dim_ok (dimension_pair r).1 = true
                                   ∧ dim_ok (dimension_pair r).2 = true).
  { intros r Hr. unfold dims_complete in Hdims. rewrite forallb_forall in Hdims.
    by apply andb_true_iff, Hdims, list_elem_of_In. }
  exists f. repeat split; try done; try by apply Hok.
  - rewrite group_keys_perm. unfold distinct_pairs, keyed_rows.
    rewrite filter_all.
    + rewrite Hrows, <-list_fmap_compose.
      by rewrite (fmap_ext_elem (group_key _ ∘ f) dimension_pair)
        by (intros r _; apply Hpair).
    + intros r'. rewrite Hrows. intros (r & -> & Hr)%list_elem_of_fmap.
      fold (dimension_pair (f r)). rewrite Hpair. unfold key_notna.
      destruct (Hok r Hr) as [H1 H2].
      by rewrite (dim_ok_notna _ H1), (dim_ok_notna _ H2).
  - intros g src Hsrc. unfold group_total, group_members.
    rewrite Hrows, filter_fmap_list, <-list_fmap_compose.
    rewrite (list_filter_iff _ (λ r, dimension_pair r = g)); last first.
    { intros r. fold (dimension_pair (f r)). by rewrite Hpair. }
    f_equal. apply list_fmap_ext. intros _ r _. unfold compose. by rewrite Hnum.
Qed.

Lemma coerced_sum_finite (df : DataFrame) (src : string) (l : list (gmap string cell)) :
  finite_metrics df = true → src ∈ numeric_cols → (∀ r, r ∈ l → r ∈ rows df) →
  is_finite (sum_num (coerced_value df src <$> l)) = true.
Proof.
  intros Hfin Hsrc Hl. apply sum_num_finite, Forall_fmap, Forall_forall.
  intros r Hr%Hl. unfold finite_metrics in Hfin. rewrite forallb_forall in Hfin.
  apply list_elem_of_In, Hfin in Hr. rewrite forallb_forall in Hr.
  by apply Hr, list_elem_of_In.
Qed.

Lemma named_aggs_numeric (out src : string) : (out, src) ∈ named_aggs → src ∈ numeric_cols.
Proof.
  unfold named_aggs. intros Hin.
  repeat (apply elem_of_cons in Hin as [[= -> ->]|Hin]; [by_compute|]).
  by apply not_elem_of_nil in Hin.
Qed.

(** C2 (as amended): for a dataset that has both dimension columns, in
    which every row has both dimension values present and every coerced
    numeric value is finite, the grouped table has exactly one row per
    distinct (Campaign Name, Keyword or Product Targeting) pair of the
    dataset; each total of a row is the sum of its column over the rows of
    the dataset with that pair; and summing a total over the grouped rows
    gives the overall total that the engine returns. *)
Theorem C2_grouped_rows_partition_the_totals (h : heap) (dataframe : loc) (df : DataFrame) :
  h !! dataframe = Some (PyDataFrame df) →
  keyword_column ∈ columns df → campaign_column ∈ columns df →
  dims_complete df = true → finite_metrics df = true →
  ∃ kd,
    (with_engine dataframe get_keyword_performance h).1 = Ok kd
    ∧ dimension_pair <$> rows kd ≡ₚ distinct_pairs df
    ∧ (∀ r out src, r ∈ rows kd → (out, src) ∈ named_aggs →
         r !!! out
         = CNum (sum_num (coerced_value df src
                            <$> filter (λ r', dimension_pair r' = dimension_pair r) (rows df))))
    ∧ (∀ out src get, (out, src) ∈ named_aggs → (src, get) ∈ total_getters →
         (with_engine dataframe get h).1
         = Ok (sum_num ((λ r : gmap string cell, cell_value (r !!! out)) <$> rows kd))).
Proof.
  intros Hh Hk Hc Hdims Hfin.
  destruct (preprocessed_groups df Hdims) as (f & Hrows & Hnum & Hpair & Hok & Hperm & Htot).
  destruct (preprocess_frame_shape df) as (_ & _ & Hcols & _).
  set (df' := preprocess_frame df) in *.
  set (gk := group_keys (campaign_column, keyword_column) (rows df')) in *.
  assert (Hgk : ∀ g, g ∈ gk → dim_ok g.1 = true ∧ dim_ok g.2 = true).
  { intros g. rewrite Hperm. unfold distinct_pairs. rewrite elem_of_remove_dups.
    intros (r & -> & Hr)%list_elem_of_fmap. by apply Hok. }
  assert (Hkey : ∀ g, g ∈ gk → dimension_pair (grouped_row df' g) = g).
  { intros g [H1 H2]%Hgk. rewrite dimension_pair_grouped_row.
    rewrite !normalize_cell_dim by done. by destruct g. }
  exists (grouped_table df'). split; [|split; [|split]].
  - rewrite (with_engine_eq h dataframe df) by done.
    rewrite (keyword_performance_eq _ _ _ (engine_at_init h df)). fold df'.
    rewrite !(proj2 (has_column_true df' _)) by (apply Hcols; by left). done.
  - unfold grouped_table. cbn [rows]. rewrite <-list_fmap_compose.
    rewrite (fmap_ext_elem _ id) by (intros g Hg; by apply Hkey).
    by rewrite list_fmap_id.
  - intros r out src. unfold grouped_table. cbn [rows].
    intros (g & -> & Hg)%list_elem_of_fmap Hagg.
    rewrite (grouped_row_total _ _ out src Hagg), (Hkey g Hg).
    rewrite Htot by (by eapply named_aggs_numeric). f_equal. apply normalize_id.
    apply coerced_sum_finite; [done|by eapply named_aggs_numeric|].
    intros r. rewrite list_elem_of_filter. tauto.
  - intros out src get Hagg Hget.
    assert (Hsrc := named_aggs_numeric out src Hagg).
    assert ((with_engine dataframe get h).1
            = Ok (sum_num (coerced_value df src <$> rows df))) as ->.
    { unfold total_getters in Hget.
      repeat (apply elem_of_cons in Hget as [[= -> ->]|Hget];
              [by apply with_engine_total|]).
      by apply not_elem_of_nil in Hget. }
    f_equal. unfold grouped_table. cbn [rows]. fold df' gk.
    rewrite <-list_fmap_compose.
    rewrite (fmap_ext_elem _ (λ g, sum_num (coerced_value df src
               <$> filter (λ r, dimension_pair r = g) (rows df)))).
    + symmetry. apply sum_partition.
      * rewrite Hperm. apply NoDup_remove_dups.
      * intros r Hr. rewrite Hperm. unfold distinct_pairs.
        rewrite elem_of_remove_dups. apply list_elem_of_fmap. by exists r.
    + intros g Hg. unfold compose.
      rewrite (grouped_row_total _ _ out src Hagg). cbn [cell_value].
      rewrite Htot by done. apply normalize_id.
      apply coerced_sum_finite; [done..|].
      intros r. rewrite list_elem_of_filter. tauto.
Qed.

(** ** Finiteness of the ratios *)

Lemma normalize_div_zero (x y : num) :
  normalize y = Finite 0 → normalize (num_div x y) = Finite 0.
Proof.
  destruct y as [q| | |]; simpl.
  - intros [= ->]. destruct x as [a| | |]; simpl; try done;
      by repeat case_bool_decide.
  - intros _. by destruct x.
  - intros _. by destruct x.
  - intros _. by destruct x.
Qed.

Lemma normalize_times_100 (x : num) :
  normalize x = Finite 0 → normalize (num_mul x (num_of_Z 100)) = Finite 0.
Proof.
  destruct x as [a| | |]; simpl; try done.
  intros [= ->]. by rewrite Qcmult_0_l.
Qed.

Lemma normalize_percent_zero (x y : num) :
  normalize y = Finite 0 → normalize (percent x y) = Finite 0.
Proof. intros Hy. by apply normalize_times_100, normalize_div_zero. Qed.

Lemma grouped_row_ratio (df : DataFrame) (g : cell * cell) (ratio numer denom : string) :
  (ratio, (numer, denom)) ∈ ratio_columns →
  ∃ x y, grouped_row df g !!! denom = CNum (normalize y)
         ∧ grouped_row df g !!! ratio = CNum (normalize x)
         ∧ (normalize y = Finite 0 → normalize x = Finite 0).
Proof.
  unfold ratio_columns. intros Hin.
  repeat (apply elem_of_cons in Hin as [[= -> -> ->]|Hin];
          [unfold grouped_row; row_lookup; rewrite !normalize_cell_num;
           eexists _, _; split; [reflexivity|]; split; [reflexivity|];
           first [ apply normalize_percent_zero | apply normalize_div_zero ] |]).
  by apply not_elem_of_nil in Hin.
Qed.

(** X1: in every row of the grouped table of every dataset, each of the
    five ratios is a finite number, and it is 0 when the total in its
    denominator column is 0. *)
Theorem X1_grouped_ratios_are_finite (h : heap) (dataframe : loc) (df : DataFrame) :
  h !! dataframe = Some (PyDataFrame df) →
  ∃ kd,
    (with_engine dataframe get_keyword_performance h).1 = Ok kd
    ∧ ∀ r ratio numer denom,
        r ∈ rows kd → (ratio, (numer, denom)) ∈ ratio_columns →
        (∃ q, r !!! ratio = CNum (Finite q))
        ∧ (r !!! denom = CNum (Finite 0) → r !!! ratio = CNum (Finite 0)).
Proof.
  intros Hh. rewrite (with_engine_eq h dataframe df) by done.
  rewrite (keyword_performance_eq _ _ _ (engine_at_init h df)).
  eexists. split; [done|].
  intros r ratio numer denom Hr Hin.
  destruct (_ && _); [|by apply not_elem_of_nil in Hr].
  unfold grouped_table in Hr. cbn [rows] in Hr.
  apply list_elem_of_fmap in Hr as (g & -> & _).
  destruct (grouped_row_ratio (preprocess_frame df) g _ _ _ Hin) as (x & y & -> & -> & Hz).
  split.
  - pose proof (normalize_finite x). destruct (normalize x); try done. by eexists.
  - intros [= Hy]. by rewrite Hz.
Qed.






(** ** The two engines chained *)

(** The table handed to the recommendation generator is a table of grouped
    rows. *)
Lemma grouped_table_is_grouped_rows (df : DataFrame) :
  grouped_rows_table (grouped_table df) = true.
Proof.
  unfold grouped_rows_table. apply andb_true_iff. split.
  - apply forallb_forall. intros r Hr%list_elem_of_In.
    unfold grouped_table in Hr. cbn [rows] in Hr.
    apply list_elem_of_fmap in Hr as (g & -> & _).
    unfold metric_columns, grouped_row. cbn [forallb]. row_lookup.
    rewrite !normalize_cell_num. cbn [is_num]. by rewrite !orb_true_r.
  - apply orb_true_iff. right. by_compute.
Qed.

Lemma empty_frame_is_grouped_rows : grouped_rows_table empty_frame = true.
Proof. done. Qed.

Lemma analyze_eq (h : heap) (combined_df : loc) (df : DataFrame) :
  h !! combined_df = Some (PyDataFrame df) →
  (analyze combined_df h).1
  = Ok (summary_of (preprocess_frame df),
        let kd := performance_table (preprocess_frame df) in
        or_sentinel (rule1_advisories kd ++ rule2_advisories kd
                     ++ rule3_advisories kd ++ rule4_advisories kd)).
Proof.
  intros Hh. unfold analyze, copy_object.
  set (h1 := <[fresh (dom h) := PyDataFrame df]> h).
  assert (Hcopy : (deref combined_df ≫= alloc) h = (Ok (fresh (dom h)), h1)).
  { unfold mbind, M_bind, deref, alloc. by rewrite Hh. }
  erewrite bind_ok by exact Hcopy.
  erewrite bind_ok by (apply (init_eq h1 _ df), lookup_insert_eq).
  pose proof (engine_at_init h1 df) as Hat.
  erewrite bind_ok by (apply (summary_eq _ _ _ Hat)).
  erewrite bind_ok by (apply (keyword_performance_eq _ _ _ Hat)).
  fold (performance_table (preprocess_frame df)).
  unfold RecommendationEngine__init__. rewrite generate_eq; [done|].
  unfold performance_table. destruct (_ && _).
  - apply grouped_table_is_grouped_rows.
  - apply empty_frame_is_grouped_rows.
Qed.

(** X3: the chain of [main.py] never raises on a DataFrame, and the list of
    advisories it returns is never empty. *)
Theorem X3_the_chain_returns_advisories (h : heap) (combined_df : loc) (df : DataFrame) :
  h !! combined_df = Some (PyDataFrame df) →
  ∃ kpi recs, (analyze combined_df h).1 = Ok (kpi, recs) ∧ recs ≠ [].
Proof.
  intros Hh. rewrite (analyze_eq h combined_df df) by done.
  eexists _, _. split; [done|]. cbn zeta. unfold or_sentinel.
  by destruct (rule1_advisories _ ++ _).
Qed.

Lemma example_table :
  performance_table (preprocess_frame example_frame)
  = mkDataFrame grouped_columns [example_grouped_row].
Proof. by_compute. Qed.

(** C8: for the single row (A, kw1, Impressions 1000, Clicks 5, Spend 100,
    Sales 50, Orders 0) the chain returns exactly one advisory, the one of
    rule 1: the ACOS of the group is 200; rule 2 does not fire because
    Total_Impressions is 1000, which is not greater than 1000, although CTR is
    below 1; rule 4 does not fire because Total_Clicks is 5, which is not
    greater than 10, although Total_Spend exceeds 50 and Total_Orders is
    below 1. *)
Theorem C8_single_row_example_fires_rule_1_only :
  (∃ kpi, (analyze 1%positive example_heap).1
          = Ok (kpi, [high_acos_message (CStr "kw1") (CStr "A")
                                        (format_2f (num_of_Z 200))]))
  ∧ (with_engine 1%positive get_keyword_performance example_heap).1
    = Ok (mkDataFrame grouped_columns [example_grouped_row])
  ∧ example_grouped_row !!! "ACOS" = CNum (num_of_Z 200)
  ∧ fires_high_acos example_grouped_row = true
  ∧ (cell_lt (example_grouped_row !!! "CTR") 1 = true
     ∧ example_grouped_row !!! "Total_Impressions" = CNum (num_of_Z 1000)
     ∧ cell_gt (example_grouped_row !!! "Total_Impressions") 1000 = false
     ∧ fires_low_ctr example_grouped_row = false)
  ∧ fires_high_performer example_grouped_row = false
  ∧ (cell_gt (example_grouped_row !!! "Total_Spend") 50 = true
     ∧ cell_lt (example_grouped_row !!! "Total_Orders") 1 = true
     ∧ example_grouped_row !!! "Total_Clicks" = CNum (num_of_Z 5)
     ∧ cell_gt (example_grouped_row !!! "Total_Clicks") 10 = false
     ∧ fires_ineffective_spend example_grouped_row = false).
Proof.
  split; [|split].
  - eexists. rewrite (analyze_eq example_heap 1%positive example_frame) by done.
    rewrite example_table. reflexivity.
  - rewrite (with_engine_eq example_heap 1%positive example_frame) by done.
    rewrite (keyword_performance_eq _ _ _ (engine_at_init example_heap example_frame)).
    fold (performance_table (preprocess_frame example_frame)).
    by rewrite example_table.
  - repeat split; by_compute.
Qed.

(** C1 on the code: an infinite Spend value makes the overall Cost Per
    Click and the overall ACOS infinite (their guards only ask for a positive
    denominator total), while the grouped row of the same data has its
    infinite ratios replaced by 0. *)
Theorem C1_overall_ratio_is_infinite_for_infinite_spend :
  (with_engine 1%positive get_total_spend infinite_spend_heap).1 = Ok PosInf
  ∧ (with_engine 1%positive get_total_clicks infinite_spend_heap).1 = Ok (num_of_Z 1)
  ∧ (with_engine 1%positive calculate_cpc infinite_spend_heap).1 = Ok PosInf
  ∧ (with_engine 1%positive calculate_acos infinite_spend_heap).1 = Ok PosInf
  ∧ is_finite PosInf = false
  ∧ (λ kd, (λ r : gmap string cell, (r !!! "CPC", r !!! "ACOS")) <$> rows kd)
      <$> (with_engine 1%positive get_keyword_performance infinite_spend_heap).1
    = Ok [(CNum (Finite 0), CNum (Finite 0))].
Proof. repeat split; by_compute. Qed.

End Engines.

(** ** Worked examples

    The properties above at concrete datasets, with [demo_runtime] as the
    runtime. *)

#[local] Existing Instance demo_runtime.

(** The totals of a dirty dataset: "n/a" and the missing values count as 0,
    the text "12" counts as 12, and the absent Orders column sums to 0. *)
Lemma C4_witness :
  dirty_heap !! 1%positive = Some (PyDataFrame dirty_frame)
  ∧ (with_engine 1%positive get_total_impressions dirty_heap).1 = Ok (num_of_Z 5)
  ∧ (with_engine 1%positive get_total_clicks dirty_heap).1 = Ok (num_of_Z 13)
  ∧ (with_engine 1%positive get_total_spend dirty_heap).1 = Ok (num_of_Z 7)
  ∧ (with_engine 1%positive get_total_sales dirty_heap).1 = Ok (num_of_Z 0)
  ∧ (with_engine 1%positive get_total_orders dirty_heap).1 = Ok (num_of_Z 0).
Proof.
  split; [reflexivity|].
  destruct (C4_totals_are_sums_of_coerced_columns dirty_heap 1%positive dirty_frame eq_refl)
    as [HF _].
  unfold total_getters in HF.
  repeat (apply Forall_cons_1 in HF as [[? _] HF]). cbn [fst snd] in *.
  repeat split;
    match goal with H : ?x = _ |- ?x = _ => rewrite H; by_compute end.
Defined.

(** A row without Campaign Name belongs to no group: the dataset has two
    distinct pairs and the table one row, and Total_Impressions over the
    table is 1 while the overall total is 3. *)
Lemma C2_counterexample :
  keyword_column ∈ columns missing_campaign_frame
  ∧ campaign_column ∈ columns missing_campaign_frame
  ∧ distinct_pairs missing_campaign_frame = [(CStr "A", CStr "kw1"); (CNum NaN, CStr "kw1")]
  ∧ (λ kd, dimension_pair <$> rows kd)
      <$> (with_engine 1%positive get_keyword_performance missing_campaign_heap).1
    = Ok [(CStr "A", CStr "kw1")]
  ∧ (λ kd, sum_num ((λ r : gmap string cell, cell_value (r !!! "Total_Impressions"))
                      <$> rows kd))
      <$> (with_engine 1%positive get_keyword_performance missing_campaign_heap).1
    = Ok (num_of_Z 1)
  ∧ (with_engine 1%positive get_total_impressions missing_campaign_heap).1
    = Ok (num_of_Z 3)
  ∧ num_of_Z 1 ≠ num_of_Z 3.
Proof. repeat split; by_compute. Qed.

(** Four rows with three distinct pairs: the table has three rows and its
    Total_Impressions add up to the overall 2018. *)
Lemma C2_witness :
  two_campaigns_heap !! 1%positive = Some (PyDataFrame two_campaigns_frame)
  ∧ keyword_column ∈ columns two_campaigns_frame
  ∧ campaign_column ∈ columns two_campaigns_frame
  ∧ dims_complete two_campaigns_frame = true
  ∧ finite_metrics two_campaigns_frame = true
  ∧ ∃ kd,
      (with_engine 1%positive get_keyword_performance two_campaigns_heap).1 = Ok kd
      ∧ length (rows kd) = 3%nat
      ∧ length (distinct_pairs two_campaigns_frame) = 3%nat
      ∧ sum_num ((λ r : gmap string cell, cell_value (r !!! "Total_Impressions"))
                   <$> rows kd) = num_of_Z 2018
      ∧ (with_engine 1%positive get_total_impressions two_campaigns_heap).1
        = Ok (num_of_Z 2018).
Proof.
  assert (Hk : keyword_column ∈ columns two_campaigns_frame) by by_compute.
  assert (Hc : campaign_column ∈ columns two_campaigns_frame) by by_compute.
  assert (Hd : dims_complete two_campaigns_frame = true) by reflexivity.
  assert (Hf : finite_metrics two_campaigns_frame = true) by (vm_compute; reflexivity).
  do 5 (split; [done|]).
  destruct (C2_grouped_rows_partition_the_totals
              two_campaigns_heap 1%positive two_campaigns_frame eq_refl Hk Hc Hd Hf)
    as (kd & Hkd & Hperm & _ & Hsum).
  assert (Htot : (with_engine 1%positive get_total_impressions two_campaigns_heap).1
                 = Ok (num_of_Z 2018)) by by_compute.
  exists kd. split; [exact Hkd|]. split; [|split; [by_compute|split; [|exact Htot]]].
  - apply Permutation_length in Hperm. rewrite length_fmap in Hperm. rewrite Hperm.
    by_compute.
  - specialize (Hsum "Total_Impressions" "Impressions" get_total_impressions).
    rewrite Htot in Hsum. symmetry.
    assert (Ok (num_of_Z 2018)
            = Ok (sum_num ((λ r : gmap string cell, cell_value (r !!! "Total_Impressions"))
                             <$> rows kd))) as [= ->]; [|done].
    apply Hsum; [by_compute|apply list_elem_of_here].
Defined.

(** Every denominator total is negative and every overall ratio is 0. *)
Lemma C10_witness :
  negative_heap !! 1%positive = Some (PyDataFrame negative_frame)
  ∧ (with_engine 1%positive get_total_impressions negative_heap).1 = Ok (num_of_Z (-10))
  ∧ num_lt (num_of_Z (-10)) (Finite 0) = true
  ∧ (with_engine 1%positive calculate_ctr negative_heap).1 = Ok (Finite 0)
  ∧ (with_engine 1%positive calculate_cpc negative_heap).1 = Ok (Finite 0)
  ∧ (with_engine 1%positive calculate_cvr negative_heap).1 = Ok (Finite 0)
  ∧ (with_engine 1%positive calculate_acos negative_heap).1 = Ok (Finite 0)
  ∧ (with_engine 1%positive calculate_roas negative_heap).1 = Ok (Finite 0).
Proof.
  split; [reflexivity|].
  destruct (C10_negative_denominator_totals_give_zero
              negative_heap 1%positive negative_frame eq_refl)
    as (_ & _ & _ & Hctr & Hclicks & Hacos & Hroas).
  split; [by_compute|]. split; [by_compute|].
  split; [apply (Hctr (num_of_Z (-10))); by_compute|].
  destruct (Hclicks (num_of_Z (-5))) as [Hcpc Hcvr]; [by_compute..|].
  split; [exact Hcpc|]. split; [exact Hcvr|].
  split; [apply (Hacos (num_of_Z (-2))); by_compute|].
  apply (Hroas (num_of_Z (-3))); by_compute.
Defined.

(** Rule by rule: kw1 and kw4 for rule 1, then kw1 for rule 2, kw2 for rule
    3 and kw1 for rule 4; kw1 satisfies three rules and has three advisories. *)
Lemma C3_witness :
  grouped_rows_table busy_table = true
  ∧ (generate_recommendations (RecommendationEngine__init__ ∅ busy_table)).1
    = Ok [high_acos_message (CStr "kw1") (CStr "A") "80.00";
          high_acos_message (CStr "kw4") (CStr "B") "70.00";
          low_ctr_message (CStr "kw1") (CStr "A") "0.00";
          high_performer_message (CStr "kw2") (CStr "A") "6.00" (int_cell 500);
          ineffective_spend_message (CStr "kw1") (CStr "A") (int_cell 60)]
  ∧ rules_satisfied <$> rows busy_table = [3; 1; 0; 1]%nat.
Proof.
  assert (Hkd : grouped_rows_table busy_table = true) by (vm_compute; reflexivity).
  split; [exact Hkd|]. split; [|vm_compute; reflexivity].
  destruct (C3_rules_fire_in_order_one_advisory_per_match ∅ busy_table Hkd)
    as [Hgen _].
  rewrite Hgen. by_compute.
Defined.

(** Spend and Sales 0: ACOS is 0, which is below 20, but Total_Sales is not
    above 100, and no other rule matches either. *)
Lemma C5_witness :
  grouped_rows_table quiet_table = true
  ∧ rule1_advisories quiet_table ++ rule2_advisories quiet_table
    ++ rule3_advisories quiet_table ++ rule4_advisories quiet_table = []
  ∧ (generate_recommendations (RecommendationEngine__init__ ∅ quiet_table)).1
    = Ok [no_recommendation_message].
Proof.
  assert (Hkd : grouped_rows_table quiet_table = true) by (vm_compute; reflexivity).
  assert (Hnone : rule1_advisories quiet_table ++ rule2_advisories quiet_table
                  ++ rule3_advisories quiet_table ++ rule4_advisories quiet_table = [])
    by (vm_compute; reflexivity).
  split; [exact Hkd|]. split; [exact Hnone|].
  destruct (C5_sentinel_when_no_rule_matches ∅ quiet_table Hkd) as [Hsentinel _].
  exact (Hsentinel Hnone).
Defined.

(** A dataset without Campaign Name gives the empty table; a table without
    CTR gives the advisories of rules 1, 3 and 4. *)
Lemma C6_witness :
  no_campaign_heap !! 1%positive = Some (PyDataFrame no_campaign_frame)
  ∧ campaign_column ∉ columns no_campaign_frame
  ∧ (with_engine 1%positive get_keyword_performance no_campaign_heap).1 = Ok empty_frame
  ∧ has_columns table_without_ctr rule2_columns = false
  ∧ rule_low_ctr (RecommendationEngine__init__ ∅ table_without_ctr)
    = (Ok tt, RecommendationEngine__init__ ∅ table_without_ctr)
  ∧ (generate_recommendations (RecommendationEngine__init__ ∅ table_without_ctr)).1
    = Ok [high_acos_message (CStr "kw1") (CStr "A") "80.00";
          high_acos_message (CStr "kw4") (CStr "B") "70.00";
          high_performer_message (CStr "kw2") (CStr "A") "6.00" (int_cell 500);
          ineffective_spend_message (CStr "kw1") (CStr "A") (int_cell 60)].
Proof.
  assert (Hmiss : campaign_column ∉ columns no_campaign_frame) by by_compute.
  split; [reflexivity|]. split; [exact Hmiss|].
  destruct (C6_missing_columns_are_not_errors
              no_campaign_heap 1%positive no_campaign_frame ∅ table_without_ctr eq_refl)
    as (Hempty & Hskip & Hgen).
  assert (Hno : has_columns table_without_ctr rule2_columns = false)
    by (vm_compute; reflexivity).
  assert (Hkd : grouped_rows_table table_without_ctr = true)
    by (vm_compute; reflexivity).
  split; [apply Hempty; by right|]. split; [exact Hno|].
  split.
  - destruct (Hskip (RecommendationEngine__init__ ∅ table_without_ctr) eq_refl)
      as (_ & H2 & _).
    exact (H2 Hno).
  - destruct (Hgen Hkd) as (_ & H2 & _). rewrite (H2 Hno). by_compute.
Defined.

(** The grouped rows of the dirty dataset. *)
Lemma X1_witness :
  dirty_heap !! 1%positive = Some (PyDataFrame dirty_frame)
  ∧ ∃ kd,
      (with_engine 1%positive get_keyword_performance dirty_heap).1 = Ok kd
      ∧ ∀ r ratio numer denom,
          r ∈ rows kd → (ratio, (numer, denom)) ∈ ratio_columns →
          (∃ q, r !!! ratio = CNum (Finite q))
          ∧ (r !!! denom = CNum (Finite 0) → r !!! ratio = CNum (Finite 0)).
Proof.
  split; [reflexivity|].
  exact (X1_grouped_ratios_are_finite dirty_heap 1%positive dirty_frame eq_refl).
Defined.


Lemma X3_witness :
  example_heap !! 1%positive = Some (PyDataFrame example_frame)
  ∧ ∃ kpi recs, (analyze 1%positive example_heap).1 = Ok (kpi, recs) ∧ recs ≠ [].
Proof.
  split; [reflexivity|].
  exact (X3_the_chain_returns_advisories example_heap 1%positive example_frame eq_refl).
Defined.

(** Construction from a file name instead of a dataset is rejected before
    anything is computed. *)
Example init_rejects_a_file_name :
  MetricsAnalysisEngine__init__ 1%positive not_a_frame_heap
  = (Raise (ValueError "Input must be a pandas DataFrame"), not_a_frame_heap).
Proof. reflexivity. Qed.
